(** * Z-stack projection: focus detection and bounded projection

    A shallow embedding of [automatic-z-projections/z-projection_v2.py]
    (class [ImageProjector]) and the properties of its range selection,
    focus scoring, projection and per-timepoint report.

    Conventions of the embedding:
    - Python integers are [Z]; indices produced by numpy ([argmax]) are
      naturals injected into [Z];
    - a numpy array of shape (Y, X) is a list of rows ([plane]), an array of
      shape (Z, Y, X) a list of planes ([volume]); the 4-D image of a TIFF
      file is the list of its volumes along the time axis together with its
      [shape] tuple;
    - intensities are integers held in [Z], of the integer dtype recorded
      with the image ([img_dtype]); where numpy computes in or casts to
      uint16 the wrap-around is written out ([wrap16]), and where the cast
      is refused the exception is raised;
    - [best_z] and [total_z] are Python integers as the annotations of
      [calculate_projection_range] say, without a machine width;
    - an exception is the [Raise] branch of [result]; a [try/except] is a
      match on it;
    - the object [self], the files written by [imsave] and the lines written
      by [print] are the state threaded through [process_tiff_file]. *)

From Stdlib Require Import ZArith List String Bool Lia Arith Permutation Sorted.
Import ListNotations.
Open Scope string_scope.
Open Scope Z_scope.

(** ** Exceptions *)

Inductive exn : Type :=
| ValueError (msg : string)
| IndexError (msg : string)
| TypeError (msg : string).

Inductive result (A : Type) : Type :=
| Ok (a : A)
| Raise (e : exn).

Arguments Ok {A} a.
Arguments Raise {A} e.

Definition bind {A B : Type} (r : result A) (k : A -> result B) : result B :=
  match r with
  | Ok a => k a
  | Raise e => Raise e
  end.

Notation "x <- r ;; k" := (bind r (fun x => k))
  (at level 61, r at next level, right associativity).
Notation "' p <- r ;; k" := (bind r (fun p => k))
  (at level 61, p pattern, r at next level, right associativity).

(** [str(e)] for the exceptions raised here: the message. *)
Definition exn_str (e : exn) : string :=
  match e with
  | ValueError msg => msg
  | IndexError msg => msg
  | TypeError msg => msg
  end.

(** ** Arrays *)

Definition plane := list (list Z).
Definition volume := list plane.

Definition pixel (p : plane) (y x : nat) : Z := nth x (nth y p []) 0.

(** The values met along axis 0 of a stack at pixel (y, x). *)
Definition along_axis0 (stack : volume) (y x : nat) : list Z :=
  map (fun p => pixel p y x) stack.

(** A reduction over axis 0 of an array of shape (n, dy, dx). *)
Definition reduce_axis0 (f : list Z -> Z) (dy dx : nat) (stack : volume) : plane :=
  map (fun y => map (fun x => f (along_axis0 stack y x)) (seq 0 dx)) (seq 0 dy).

(** Unsigned 16-bit wrap-around. *)
Definition wrap16 (z : Z) : Z := z mod 65536.

Definition astype_uint16 (p : plane) : plane := map (map wrap16) p.

(** The integer dtypes an image can have.  Pixels are integers here:
    floating-point images are not represented. *)
Inductive dtype : Type :=
| uint8 | uint16 | uint32 | uint64
| int8 | int16 | int32 | int64.

Definition dtype_name (d : dtype) : string :=
  match d with
  | uint8 => "uint8" | uint16 => "uint16" | uint32 => "uint32" | uint64 => "uint64"
  | int8 => "int8" | int16 => "int16" | int32 => "int32" | int64 => "int64"
  end.

(** [np.can_cast(d, np.uint16, casting='same_kind')]: the unsigned kinds
    only; a signed integer is of a higher kind than an unsigned one. *)
Definition can_cast_same_kind_uint16 (d : dtype) : bool :=
  match d with
  | uint8 | uint16 | uint32 | uint64 => true
  | int8 | int16 | int32 | int64 => false
  end.

(** The cast that [np.concatenate(..., dtype=np.uint16)] applies to an
    array of dtype [d] under its default [casting='same_kind']: a wrap to 16
    bits when the cast is allowed, a [TypeError] otherwise. *)
Definition cast_same_kind_uint16 (d : dtype) (p : plane) : result plane :=
  if can_cast_same_kind_uint16 d then Ok (astype_uint16 p)
  else Raise (TypeError ("Cannot cast array data from dtype('" ++ dtype_name d ++
                         "') to dtype('uint16') according to the rule 'same_kind'")).

(** [np.sum(..., dtype=np.uint16)] at one pixel: the accumulator is a
    uint16, every addition wraps. *)
Definition sum_uint16 (l : list Z) : Z :=
  fold_left (fun acc v => wrap16 (acc + v)) l 0.

(** [np.mean(..., axis=0, dtype=np.uint16)] at one pixel.  numpy sums with
    the requested dtype, then divides the sum by the number of items with
    [true_divide(ret, rcount, out=ret, casting='unsafe')]: the quotient of a
    uint16 by the count, cast back to uint16, that is truncated.  The sum is
    below 2^16, so the quotient is the integer quotient.  (For an empty
    stack numpy casts a NaN; [Z.div] gives 0 there, and no caller below
    reaches that case.) *)
Definition mean_uint16 (l : list Z) : Z :=
  sum_uint16 l / Z.of_nat (List.length l).

(** [np.max] at one pixel of a non-empty stack. *)
Definition max_list (l : list Z) : Z :=
  match l with
  | [] => 0
  | v :: l' => fold_left Z.max l' v
  end.

(** [range(start, stop)]. *)
Definition py_range (start stop : Z) : list Z :=
  map (fun i => start + Z.of_nat i) (seq 0 (Z.to_nat (stop - start))).

(** [indices[0]] and [indices[-1]] on a range. *)
Definition range_first (indices : list Z) : result Z :=
  match indices with
  | [] => Raise (IndexError "range object index out of range")
  | i :: _ => Ok i
  end.

Definition range_last (indices : list Z) : result Z :=
  match rev indices with
  | [] => Raise (IndexError "range object index out of range")
  | i :: _ => Ok i
  end.

(** [a.take(i, axis=0)] for one index: negative indices count from the end,
    anything outside [-n, n) raises. *)
Definition take1 {A : Type} (a : list A) (i : Z) : result A :=
  let n := Z.of_nat (List.length a) in
  let j := if i <? 0 then i + n else i in
  if (0 <=? j) && (j <? n) then
    match nth_error a (Z.to_nat j) with
    | Some v => Ok v
    | None => Raise (IndexError "index out of range")
    end
  else Raise (IndexError "index out of range").

(** [a.take(indices, axis=0)]. *)
Fixpoint take {A : Type} (a : list A) (indices : list Z) : result (list A) :=
  match indices with
  | [] => Ok []
  | i :: rest =>
      v <- take1 a i ;;
      vs <- take a rest ;;
      Ok (v :: vs)
  end.

(** ** The projector object *)

(** One sheet of the report: the five columns of [report_data[stem]]. *)
Record report : Type := {
  Timepoint : list Z;
  Numb_projected_z : list Z;
  Type_of_proj : list string;
  Start_z : list Z;
  Stop_z : list Z
}.

(** A Python dict with string keys: assignment replaces the value of a key
    that is present and appends a new key otherwise. *)
Fixpoint dict_set {V : Type} (d : list (string * V)) (k : string) (v : V)
  : list (string * V) :=
  match d with
  | [] => [(k, v)]
  | (k', v') :: d' =>
      if String.eqb k' k then (k, v) :: d' else (k', v') :: dict_set d' k v
  end.

Fixpoint dict_get {V : Type} (d : list (string * V)) (k : string) : option V :=
  match d with
  | [] => None
  | (k', v') :: d' => if String.eqb k' k then Some v' else dict_get d' k
  end.

Record ImageProjector : Type := {
  channels : list string;
  projection_type : string;
  z_range : Z;
  report_data : list (string * report);
  processed_count : nat
}.

(** [calculate_projection_range(self, best_z, total_z)]. *)
Definition calculate_projection_range (self : ImageProjector) (best_z total_z : Z)
  : Z * Z * Z :=
  let start := best_z - z_range self in
  let stop := best_z + z_range self + 1 in
  let n_slices := 2 * z_range self + 1 in
  if start <? 0 then
    (0, Z.min n_slices total_z, n_slices)
  else if stop >? total_z then
    (Z.max 0 (total_z - n_slices), total_z, n_slices)
  else
    (start, stop, n_slices).

(** [perform_projection(self, image_stack)], for a stack of shape
    (n, dy, dx).  [np.max] over an empty axis raises. *)
Definition perform_projection (self : ImageProjector) (dy dx : nat)
    (image_stack : volume) : result plane :=
  if String.eqb (projection_type self) "mean" then
    Ok (reduce_axis0 mean_uint16 dy dx image_stack)
  else if String.eqb (projection_type self) "max" then
    match image_stack with
    | [] => Raise (ValueError
        "zero-size array to reduction operation maximum which has no identity")
    | _ => Ok (reduce_axis0 max_list dy dx image_stack)
    end
  else
    Raise (ValueError ("Unsupported projection type: " ++ projection_type self)).

(** The dtype of the plane that [perform_projection] returns for a stack of
    dtype [d]: [np.mean(..., dtype=np.uint16)] gives uint16, [np.max] keeps
    the dtype of the stack. *)
Definition projection_dtype (self : ImageProjector) (d : dtype) : dtype :=
  if String.eqb (projection_type self) "mean" then uint16 else d.

(** ** Focus scoring

    [image.std(axis=(1, 2))] is a floating-point reduction of numpy.  Its
    scores are kept abstract: [score] is the type of the scores, [std] the
    score of one plane, and [leb] is the comparison [<=] of scores that
    [argmax] uses.  A plane of integer intensities with at least one pixel
    has a finite, non-NaN standard deviation, and on such values [<=] is a
    total preorder. *)

Section Focus.

Variable score : Type.
Variable leb : score -> score -> bool.
Variable std : plane -> score.

(** The scan of numpy's [argmax] on floating-point data: [mp] is the
    maximum met so far, [max_ind] its index, [i] the index of the head of
    [l]; the maximum moves only when [not (l[i] <= mp)]. *)
Fixpoint argmax_scan (mp : score) (max_ind i : nat) (l : list score) : nat :=
  match l with
  | [] => max_ind
  | v :: l' =>
      if leb v mp then argmax_scan mp max_ind (S i) l'
      else argmax_scan v i (S i) l'
  end.

Definition argmax (l : list score) : result nat :=
  match l with
  | [] => Raise (ValueError "attempt to get argmax of an empty sequence")
  | v :: l' => Ok (argmax_scan v 0 1 l')
  end.

(** [get_focused_z_slice(self, image)]. *)
Definition get_focused_z_slice (image : volume) : result (list score * nat) :=
  let std_devs := map std image in
  best_z <- argmax std_devs ;;
  Ok (std_devs, best_z).

(** ** One TIFF file *)

Record tiff_file : Type := {
  file_name : string;
  file_stem : string;
  img_shape : list nat;
  img_dtype : dtype;
  img_frames : list volume
}.

(** What [process_tiff_file] reads and writes besides its argument: the
    object, the files written by [imsave] (a later write to the same path
    replaces the file) and the printed lines. *)
Record world : Type := {
  projector : ImageProjector;
  saved : list (string * list plane);
  stdout : list string
}.

Definition print (w : world) (line : string) : world :=
  {| projector := projector w; saved := saved w; stdout := (stdout w ++ [line])%list |}.

Definition count_processed (w : world) : world :=
  let self := projector w in
  {| projector :=
       {| channels := channels self;
          projection_type := projection_type self;
          z_range := z_range self;
          report_data := report_data self;
          processed_count := S (processed_count self) |};
     saved := saved w; stdout := stdout w |}.

Definition imsave (w : world) (path : string) (data : list plane) : world :=
  {| projector := projector w;
     saved := dict_set (saved w) path data;
     stdout := stdout w |}.

Definition store_report (w : world) (key : string) (r : report) : world :=
  let self := projector w in
  {| projector :=
       {| channels := channels self;
          projection_type := projection_type self;
          z_range := z_range self;
          report_data := dict_set (report_data self) key r;
          processed_count := processed_count self |};
     saved := saved w; stdout := stdout w |}.

(** The local variables of [process_tiff_file] that the loop updates. *)
Record locals : Type := {
  img_proj_tp : list plane;
  timepoints : list Z;
  n_proj_z : list Z;
  proj_types : list string;
  start_z : list Z;
  stop_z : list Z
}.

(** [np.empty(output_shape)]: one plane of unspecified content, dropped
    again by [img_proj_tp[1:]]. *)
Definition np_empty (dy dx : nat) : plane := repeat (repeat 0 dx) dy.

(** The body of [for t in range(shape[0])].  An exception leaves the loop
    and the function body; the locals are lost with it.  The last step is
    [np.concatenate((img_proj_tp, img_proj), dtype=np.uint16)]: the projected
    plane is cast to uint16 under the rule 'same_kind', which raises for a
    plane of a signed dtype (the max rule on a signed image). *)
Definition timepoint_body (self : ImageProjector) (f : tiff_file)
    (st : locals) (t : nat) : result locals :=
  let shape := img_shape f in
  img_tp <- take1 (img_frames f) (Z.of_nat t) ;;
  let timepoints' := (timepoints st ++ [Z.of_nat t + 1])%list in
  let proj_types' := (proj_types st ++ [projection_type self])%list in
  ' (_, best_z) <- get_focused_z_slice img_tp ;;
  let '(start, stop, n_slices) :=
    calculate_projection_range self (Z.of_nat best_z) (Z.of_nat (nth 1 shape 0%nat)) in
  let n_proj_z' := (n_proj_z st ++ [n_slices])%list in
  let indices := py_range start stop in
  first <- range_first indices ;;
  let start_z' := (start_z st ++ [first + 1])%list in
  last <- range_last indices ;;
  let stop_z' := (stop_z st ++ [last + 1])%list in
  img_z_stack <- take img_tp indices ;;
  img_proj <- perform_projection self (nth 2 shape 0%nat) (nth 3 shape 0%nat) img_z_stack ;;
  img_proj16 <- cast_same_kind_uint16 (projection_dtype self (img_dtype f)) img_proj ;;
  Ok {| img_proj_tp := (img_proj_tp st ++ [img_proj16])%list;
        timepoints := timepoints';
        n_proj_z := n_proj_z';
        proj_types := proj_types';
        start_z := start_z';
        stop_z := stop_z' |}.

Fixpoint for_each (body : locals -> nat -> result locals) (ts : list nat)
    (st : locals) : result locals :=
  match ts with
  | [] => Ok st
  | t :: ts' => st' <- body st t ;; for_each body ts' st'
  end.

(** [process_tiff_file(self, file_path)], from the image read by [imread]
    on. *)
Definition process_tiff_file (w : world) (f : tiff_file) : world :=
  let shape := img_shape f in
  if (List.length shape <=? 3)%nat then
    print w ("Skipping " ++ file_name f ++ ": insufficient dimensions")
  else
    let w := count_processed w in
    let w := print w ("Processing TIFF: " ++ file_name f) in
    let self := projector w in
    let st0 := {| img_proj_tp := [np_empty (nth 2 shape 0%nat) (nth 3 shape 0%nat)];
                  timepoints := []; n_proj_z := []; proj_types := [];
                  start_z := []; stop_z := [] |} in
    match for_each (timepoint_body self f) (seq 0 (nth 0 shape 0%nat)) st0 with
    | Ok st =>
        let out := tl (img_proj_tp st) in
        let output_name := file_stem f ++ "_" ++ projection_type self ++ "proj.tif" in
        let w := imsave w output_name out in
        store_report w (file_stem f)
          {| Timepoint := timepoints st;
             Numb_projected_z := n_proj_z st;
             Type_of_proj := proj_types st;
             Start_z := start_z st;
             Stop_z := stop_z st |}
    | Raise e =>
        print w ("Error processing " ++ file_name f ++ ": " ++ exn_str e)
    end.

End Focus.

Arguments argmax_scan {score} leb mp max_ind i l.
Arguments argmax {score} leb l.
Arguments get_focused_z_slice {score} leb std image.
Arguments timepoint_body {score} leb std self f st t.
Arguments process_tiff_file {score} leb std w f.

(** ** The loop over the folder

    The loop of [run]: [for file_path in sorted(self.folder.iterdir())].
    An entry of the folder is the [Path] object as the loop reads it
    ([is_file()], [suffix], [name]) with the image that [imread] gives for
    it.  The header and summary lines printed by [run] around the loop and
    [save_report] are not part of this model. *)

Record dir_entry : Type := {
  is_file : bool;
  path_suffix : string;
  entry_file : tiff_file
}.

(** [str.lower()].  Only ASCII capitals are mapped; the result is compared
    with '.tif', and no other character has a letter of '.tif' as its lower
    case. *)
Definition ascii_lower (c : Ascii.ascii) : Ascii.ascii :=
  let n := Ascii.N_of_ascii c in
  if ((65 <=? n) && (n <=? 90))%N then Ascii.ascii_of_N (n + 32) else c.

Fixpoint lower (s : string) : string :=
  match s with
  | EmptyString => EmptyString
  | String c s' => String (ascii_lower c) (lower s')
  end.

(** [sub in s] on strings. *)
Fixpoint contains (sub s : string) : bool :=
  if prefix sub s then true
  else
    match s with
    | EmptyString => false
    | String _ s' => contains sub s'
    end.

(** [sorted] on the paths of one folder: they differ by their names only,
    and are ordered as their names are.  The sort is stable. *)
Fixpoint insert_by_name (e : dir_entry) (l : list dir_entry) : list dir_entry :=
  match l with
  | [] => [e]
  | x :: l' =>
      if String.leb (file_name (entry_file e)) (file_name (entry_file x))
      then e :: l
      else x :: insert_by_name e l'
  end.

Fixpoint sorted (l : list dir_entry) : list dir_entry :=
  match l with
  | [] => []
  | e :: l' => insert_by_name e (sorted l')
  end.

(** The two tests of the loop body: a regular file, with the suffix '.tif'
    in any case and the name of one of the channels in its name. *)
Definition selected (self : ImageProjector) (e : dir_entry) : bool :=
  if negb (is_file e) then false
  else
    String.eqb (lower (path_suffix e)) ".tif" &&
    existsb (fun channel => contains channel (file_name (entry_file e)))
      (channels self).

Section Folder.

Variable score : Type.
Variable leb : score -> score -> bool.
Variable std : plane -> score.

Fixpoint run_files (w : world) (entries : list dir_entry) : world :=
  match entries with
  | [] => w
  | e :: rest =>
      let w' :=
        if selected (projector w) e
        then process_tiff_file leb std w (entry_file e)
        else w in
      run_files w' rest
  end.

Definition run_loop (w : world) (listing : list dir_entry) : world :=
  run_files w (sorted listing).

End Folder.

Arguments run_files {score} leb std w entries.
Arguments run_loop {score} leb std w listing.

(** * Vocabulary of the properties *)

(** [ImageProjector(folder, channels, projection_type, z_range)]: the fields
    of a fresh object. *)
Definition init (chans : list string) (rule : string) (half_width : Z)
  : ImageProjector :=
  {| channels := chans;
     projection_type := rule;
     z_range := half_width;
     report_data := [];
     processed_count := 0 |}.

(** The two tests of [calculate_projection_range], on the nominal window. *)
Definition start_underflow (self : ImageProjector) (best_z : Z) : Prop :=
  best_z - z_range self < 0.

Definition stop_overflow (self : ImageProjector) (best_z total_z : Z) : Prop :=
  best_z + z_range self + 1 > total_z.

(** The rules that [perform_projection] knows. *)
Definition supported (self : ImageProjector) : Prop :=
  projection_type self = "mean" \/ projection_type self = "max".

(** The image has four axes, one volume per timepoint and at least one
    plane in every volume. *)
Definition shape_ok (f : tiff_file) : Prop :=
  List.length (img_shape f) = 4%nat /\
  List.length (img_frames f) = nth 0 (img_shape f) 0%nat /\
  (1 <= nth 1 (img_shape f) 0)%nat /\
  (forall v, In v (img_frames f) -> List.length v = nth 1 (img_shape f) 0%nat).


Section Selection.

Variable score : Type.
Variable leb : score -> score -> bool.
Variable std : plane -> score.

(** [r] is the first index of [l] that holds the maximum of [l]. *)
Definition first_max (l : list score) (r : nat) : Prop :=
  exists m,
    nth_error l r = Some m /\
    (forall s, In s l -> leb s m = true) /\
    (forall j s, (j < r)%nat -> nth_error l j = Some s -> leb m s = false).

(** The index chosen by [get_focused_z_slice] and the range derived from
    it for timepoint [t]. *)
Definition best_z_of (v : volume) : nat :=
  match get_focused_z_slice leb std v with
  | Ok (_, best_z) => best_z
  | Raise _ => 0%nat
  end.

Definition range_at (self : ImageProjector) (f : tiff_file) (t : nat) : Z * Z * Z :=
  calculate_projection_range self
    (Z.of_nat (best_z_of (nth t (img_frames f) [])))
    (Z.of_nat (nth 1 (img_shape f) 0%nat)).

(** The locals after the body for timepoint [t], given the plane
    projected for it. *)
Definition after_timepoint (self : ImageProjector) (f : tiff_file)
    (st : locals) (t : nat) (img_proj : plane) : locals :=
  {| img_proj_tp := (img_proj_tp st ++ [astype_uint16 img_proj])%list;
     timepoints := (timepoints st ++ [Z.of_nat t + 1])%list;
     n_proj_z := (n_proj_z st ++ [2 * z_range self + 1])%list;
     proj_types := (proj_types st ++ [projection_type self])%list;
     start_z := (start_z st ++ [fst (fst (range_at self f t)) + 1])%list;
     stop_z := (stop_z st ++ [snd (fst (range_at self f t))])%list |}.

End Selection.

Arguments first_max {score} leb l r.
Arguments best_z_of {score} leb std v.
Arguments range_at {score} leb std self f t.
Arguments after_timepoint {score} leb std self f st t img_proj.

(** An exact score for planes of one size, used to run the scorer: the
    variance of the intensities scaled by the squared number of pixels,
    n * sum(v^2) - sum(v)^2. *)
Definition Z_sum (l : list Z) : Z := fold_right Z.add 0 l.

Definition scaled_variance (p : plane) : Z :=
  let vs := List.concat p in
  Z.of_nat (List.length vs) * Z_sum (map (fun v => v * v) vs) - Z_sum vs * Z_sum vs.

(** A small image to run the file processing on: two timepoints of two
    planes of 2 x 2 pixels; the contrasted plane is the second one at the
    first timepoint and the first one at the second. *)
Definition demo_file : tiff_file :=
  {| file_name := "cell_WL508.tif";
     file_stem := "cell_WL508";
     img_shape := [2; 2; 2; 2]%nat;
     img_dtype := uint16;
     img_frames :=
       [ [ [[1; 1]; [1; 1]]; [[0; 9]; [9; 0]] ];
         [ [[0; 9]; [9; 0]]; [[1; 1]; [1; 1]] ] ] |}.

Definition demo_world (rule : string) : world :=
  {| projector := init ["WL508"] rule 1; saved := []; stdout := [] |}.


(** [v[start:stop]] for 0 <= start <= stop <= len(v): the slices that
    [take] picks for [range(start, stop)]. *)
Definition substack {A : Type} (v : list A) (start stop : Z) : list A :=
  firstn (Z.to_nat (stop - start)) (skipn (Z.to_nat start) v).

(** A plane of [dy] rows of [dx] pixels. *)
Definition has_shape (dy dx : nat) (p : plane) : Prop :=
  List.length p = dy /\ forall row, In row p -> List.length row = dx.

(** Every pixel of the plane is an unsigned 16-bit value. *)
Definition is_uint16 (p : plane) : Prop :=
  forall row v, In row p -> In v row -> 0 <= v <= 65535.

(** The name under which [process_tiff_file] saves the projected stack. *)
Definition output_name (self : ImageProjector) (f : tiff_file) : string :=
  file_stem f ++ "_" ++ projection_type self ++ "proj.tif".

(** The projection computed for timepoint [t]: [perform_projection] on the
    slices of the selected range; and that plane as it is stored in the
    output stack. *)
Definition projected {score : Type} (leb : score -> score -> bool)
    (std : plane -> score) (self : ImageProjector) (f : tiff_file) (t : nat)
  : result plane :=
  let r := range_at leb std self f t in
  perform_projection self (nth 2 (img_shape f) 0%nat) (nth 3 (img_shape f) 0%nat)
    (substack (nth t (img_frames f) []) (fst (fst r)) (snd (fst r))).

Definition saved_plane {score : Type} (leb : score -> score -> bool)
    (std : plane -> score) (self : ImageProjector) (f : tiff_file) (t : nat)
  : plane :=
  match projected leb std self f t with
  | Ok img_proj => astype_uint16 img_proj
  | Raise _ => []
  end.

(** The image is a uint16 array: that is its dtype, and every plane has the
    height and width of its shape and holds 16-bit intensities. *)
Definition planes_ok (f : tiff_file) : Prop :=
  img_dtype f = uint16 /\
  forall v p, In v (img_frames f) -> In p v ->
    has_shape (nth 2 (img_shape f) 0%nat) (nth 3 (img_shape f) 0%nat) p /\
    is_uint16 p.

(** The projected planes of the image can be cast to uint16 under the rule
    'same_kind': the rule is 'mean', or the image has an unsigned dtype. *)
Definition castable (self : ImageProjector) (f : tiff_file) : Prop :=
  can_cast_same_kind_uint16 (projection_dtype self (img_dtype f)) = true.

(** The loop of [process_tiff_file] run from its initial locals, and the
    report sheet made of the lists it leaves. *)
Definition timepoint_loop {score : Type} (leb : score -> score -> bool)
    (std : plane -> score) (self : ImageProjector) (f : tiff_file)
  : result locals :=
  for_each (timepoint_body leb std self f)
    (seq 0 (nth 0 (img_shape f) 0%nat))
    {| img_proj_tp := [np_empty (nth 2 (img_shape f) 0%nat) (nth 3 (img_shape f) 0%nat)];
       timepoints := []; n_proj_z := []; proj_types := [];
       start_z := []; stop_z := [] |}.

Definition report_of (st : locals) : report :=
  {| Timepoint := timepoints st;
     Numb_projected_z := n_proj_z st;
     Type_of_proj := proj_types st;
     Start_z := start_z st;
     Stop_z := stop_z st |}.

(** Two projector objects with the same rule and half-width. *)
Definition same_settings (self self' : ImageProjector) : Prop :=
  channels self' = channels self /\
  projection_type self' = projection_type self /\
  z_range self' = z_range self.

(** The five columns of a report sheet have the same number of rows. *)
Definition aligned (r : report) : Prop :=
  List.length (Numb_projected_z r) = List.length (Timepoint r) /\
  List.length (Type_of_proj r) = List.length (Timepoint r) /\
  List.length (Start_z r) = List.length (Timepoint r) /\
  List.length (Stop_z r) = List.length (Timepoint r).

(** A small folder: a sub-folder, the small image, an image of another
    channel and a flat image of three axes with its suffix in capitals. *)
Definition demo_listing : list dir_entry :=
  [ {| is_file := true; path_suffix := ".TIF";
       entry_file := {| file_name := "flat_WL508.TIF"; file_stem := "flat_WL508";
                        img_shape := [2; 2; 2]%nat; img_dtype := uint16;
                        img_frames := [] |} |};
    {| is_file := false; path_suffix := "";
       entry_file := {| file_name := "projection"; file_stem := "projection";
                        img_shape := []; img_dtype := uint16; img_frames := [] |} |};
    {| is_file := true; path_suffix := ".tif";
       entry_file := {| file_name := "cell_WL470.tif"; file_stem := "cell_WL470";
                        img_shape := img_shape demo_file;
                        img_dtype := uint16;
                        img_frames := img_frames demo_file |} |};
    {| is_file := true; path_suffix := ".tif"; entry_file := demo_file |} ].

(** The small world with another half-width or without channels, the small
    image with a signed dtype, and an image whose volume has no plane. *)
Definition demo_world_with (chans : list string) (rule : string) (half_width : Z)
  : world :=
  {| projector := init chans rule half_width; saved := []; stdout := [] |}.

Definition signed_file : tiff_file :=
  {| file_name := "signed_WL508.tif"; file_stem := "signed_WL508";
     img_shape := img_shape demo_file; img_dtype := int16;
     img_frames := img_frames demo_file |}.

Definition void_file : tiff_file :=
  {| file_name := "void_WL508.tif"; file_stem := "void_WL508";
     img_shape := [1; 0; 2; 2]%nat; img_dtype := uint16; img_frames := [[]] |}.

(** * Range selection *)

Ltac range_cases :=
  unfold calculate_projection_range, start_underflow, stop_overflow in *;
  repeat match goal with
  | |- context [?a <? ?b] => destruct (Z.ltb_spec a b)
  | |- context [?a >? ?b] => rewrite (Z.gtb_ltb a b)
  end.

(** The three branches, as equations. *)
Lemma range_underflow self best_z total_z :
  start_underflow self best_z ->
  calculate_projection_range self best_z total_z =
    (0, Z.min (2 * z_range self + 1) total_z, 2 * z_range self + 1).
Proof. intros H. range_cases; first [reflexivity | lia]. Qed.

Lemma range_overflow self best_z total_z :
  ~ start_underflow self best_z ->
  stop_overflow self best_z total_z ->
  calculate_projection_range self best_z total_z =
    (Z.max 0 (total_z - (2 * z_range self + 1)), total_z, 2 * z_range self + 1).
Proof. intros H1 H2. range_cases; first [reflexivity | lia]. Qed.

Lemma range_symmetric self best_z total_z :
  ~ start_underflow self best_z ->
  ~ stop_overflow self best_z total_z ->
  calculate_projection_range self best_z total_z =
    (best_z - z_range self, best_z + z_range self + 1, 2 * z_range self + 1).
Proof. intros H1 H2. range_cases; first [reflexivity | lia]. Qed.

(** The range stays inside the stack and is not empty. *)
Lemma range_bounds self best_z total_z start stop n_slices :
  0 <= best_z < total_z ->
  0 <= z_range self ->
  calculate_projection_range self best_z total_z = (start, stop, n_slices) ->
  0 <= start /\ start < stop /\ stop <= total_z.
Proof.
  intros Hb Hh Heq.
  assert (Hs : start = fst (fst (calculate_projection_range self best_z total_z)))
    by (rewrite Heq; reflexivity).
  assert (Ht : stop = snd (fst (calculate_projection_range self best_z total_z)))
    by (rewrite Heq; reflexivity).
  subst start stop. clear Heq. range_cases; cbn [fst snd]; lia.
Qed.

(** C1.  For 0 <= best_z < total_z and a half-width z_range >= 0, the range
    returned by [calculate_projection_range] satisfies
    0 <= start, start < stop and stop <= total_z. *)
Theorem range_within_bounds self best_z total_z :
  0 <= best_z < total_z ->
  0 <= z_range self ->
  let '(start, stop, _) := calculate_projection_range self best_z total_z in
  0 <= start /\ start < stop /\ stop <= total_z.
Proof.
  intros Hb Hh.
  destruct (calculate_projection_range self best_z total_z)
    as [[start stop] n_slices] eqn:Hr.
  exact (range_bounds self best_z total_z start stop n_slices Hb Hh Hr).
Qed.

Lemma range_within_bounds_witness :
  0 <= 4 < 5 /\ 0 <= z_range (init ["WL508"] "max" 1) /\
  let '(start, stop, _) :=
    calculate_projection_range (init ["WL508"] "max" 1) 4 5 in
  0 <= start /\ start < stop /\ stop <= 5.
Proof.
  split; [lia | split; [simpl; lia |]].
  apply (range_within_bounds (init ["WL508"] "max" 1) 4 5); simpl; lia.
Defined.

(** C2, as the code has it.  With best_z = 0, total_z = 5 and z_range = 1
    the range starts at 0 and stops at 3 = min(n_slices, total_z): the
    window slides forward and keeps its three slices. *)
Theorem window_at_front :
  calculate_projection_range (init ["WL508"] "max" 1) 0 5 = (0, 3, 3).
Proof. reflexivity. Qed.

(** C2, as stated: the range for best_z = 0, total_z = 5, z_range = 1 is
    not start = 0, stop = 2. *)
Lemma window_at_front_not_0_2 :
  ~ (let '(start, stop, _) :=
       calculate_projection_range (init ["WL508"] "max" 1) 0 5 in
     start = 0 /\ stop = 2).
Proof. cbn. intros [_ H]. discriminate H. Qed.

(** C3, as the code has it.  With best_z = 4, total_z = 5 and z_range = 1
    the range stops at 5 and starts at 2 = max(0, total_z - n_slices): the
    window slides backward and keeps its three slices. *)
Theorem window_at_back :
  calculate_projection_range (init ["WL508"] "max" 1) 4 5 = (2, 5, 3).
Proof. reflexivity. Qed.

(** C3, as stated: the range for best_z = 4, total_z = 5, z_range = 1 is
    not start = 3, stop = 5. *)
Lemma window_at_back_not_3_5 :
  ~ (let '(start, stop, _) :=
       calculate_projection_range (init ["WL508"] "max" 1) 4 5 in
     start = 3 /\ stop = 5).
Proof. cbn. intros [H _]. discriminate H. Qed.

(** C5.  When total_z >= n_slices = 2 * z_range + 1 and best_z is at least
    z_range away from both ends, the range has exactly n_slices slices. *)
Theorem range_symmetric_size self best_z total_z :
  0 <= best_z < total_z ->
  total_z >= 2 * z_range self + 1 ->
  z_range self <= best_z <= total_z - z_range self - 1 ->
  let '(start, stop, n_slices) := calculate_projection_range self best_z total_z in
  n_slices = 2 * z_range self + 1 /\ stop - start = n_slices.
Proof. intros Hb Ht Hm. range_cases; lia. Qed.

Lemma range_symmetric_size_witness :
  0 <= 2 < 5 /\ 5 >= 2 * z_range (init ["WL508"] "max" 1) + 1 /\
  z_range (init ["WL508"] "max" 1) <= 2 <= 5 - z_range (init ["WL508"] "max" 1) - 1 /\
  let '(start, stop, n_slices) :=
    calculate_projection_range (init ["WL508"] "max" 1) 2 5 in
  n_slices = 2 * z_range (init ["WL508"] "max" 1) + 1 /\ stop - start = n_slices.
Proof.
  split; [lia | split; [simpl; lia | split; [simpl; lia |]]].
  apply (range_symmetric_size (init ["WL508"] "max" 1) 2 5); simpl; lia.
Defined.

(** C9.  For 0 <= best_z < total_z exactly one of the three cases gives the
    result: the start-underflow clamp, the stop-overflow clamp, or the
    symmetric window.  Both tests cannot hold when n_slices <= total_z, and
    when n_slices > total_z the result is the one of the start-underflow
    clamp: start = 0, stop = min(n_slices, total_z). *)
Theorem range_one_branch self best_z total_z :
  0 <= best_z < total_z ->
  let n_slices := 2 * z_range self + 1 in
  let r := calculate_projection_range self best_z total_z in
  let underflow_case :=
    start_underflow self best_z /\ r = (0, Z.min n_slices total_z, n_slices) in
  let overflow_case :=
    ~ start_underflow self best_z /\ stop_overflow self best_z total_z /\
    r = (Z.max 0 (total_z - n_slices), total_z, n_slices) in
  let symmetric_case :=
    ~ start_underflow self best_z /\ ~ stop_overflow self best_z total_z /\
    r = (best_z - z_range self, best_z + z_range self + 1, n_slices) in
  ((underflow_case /\ ~ overflow_case /\ ~ symmetric_case) \/
   (~ underflow_case /\ overflow_case /\ ~ symmetric_case) \/
   (~ underflow_case /\ ~ overflow_case /\ symmetric_case)) /\
  (n_slices <= total_z ->
   ~ (start_underflow self best_z /\ stop_overflow self best_z total_z)) /\
  (n_slices > total_z -> r = (0, Z.min n_slices total_z, n_slices)).
Proof.
  intros Hb n_slices r underflow_case overflow_case symmetric_case.
  split; [| split].
  - destruct (Z_lt_dec (best_z - z_range self) 0) as [Hu | Hu].
    + left. split; [| split].
      * split; [exact Hu | apply range_underflow; exact Hu].
      * intros (Hn & _). apply Hn. exact Hu.
      * intros (Hn & _). apply Hn. exact Hu.
    + destruct (Z_gt_dec (best_z + z_range self + 1) total_z) as [Ho | Ho].
      * right. left. split; [| split].
        -- intros (Hn & _). apply Hu. exact Hn.
        -- split; [exact Hu | split; [exact Ho |]].
           apply range_overflow; assumption.
        -- intros (_ & Hn & _). apply Hn. exact Ho.
      * right. right. split; [| split].
        -- intros (Hn & _). apply Hu. exact Hn.
        -- intros (_ & Hn & _). apply Ho. exact Hn.
        -- split; [exact Hu | split; [exact Ho |]].
           apply range_symmetric; assumption.
  - unfold start_underflow, stop_overflow. subst n_slices. lia.
  - intros Hn. subst r n_slices.
    destruct (Z_lt_dec (best_z - z_range self) 0) as [Hu | Hu].
    + apply range_underflow. exact Hu.
    + rewrite range_overflow.
      * f_equal. f_equal; lia.
      * exact Hu.
      * unfold stop_overflow. lia.
Qed.

Lemma range_one_branch_witness :
  0 <= 3 < 4 /\
  calculate_projection_range (init ["WL508"] "max" 2) 3 4 = (0, 4, 5).
Proof.
  split; [lia |].
  destruct (range_one_branch (init ["WL508"] "max" 2) 3 4) as (_ & _ & H);
    [lia |].
  apply H. simpl. lia.
Defined.

(** * Focus scoring *)

Section FocusProperties.

Variable score : Type.
Variable leb : score -> score -> bool.
Variable std : plane -> score.

(** On the scores of real planes [<=] is a total preorder. *)
Hypothesis leb_total : forall a b, leb a b = true \/ leb b a = true.
Hypothesis leb_trans :
  forall a b c, leb a b = true -> leb b c = true -> leb a c = true.


Lemma leb_false_flip a b : leb a b = false -> leb b a = true.
Proof. intros H. destruct (leb_total a b) as [H' | H']; congruence. Qed.

(** The invariant of the scan: the running maximum is the first maximum
    of the part already read. *)
Lemma argmax_scan_first_max l :
  forall pre mp max_ind,
    nth_error pre max_ind = Some mp ->
    (forall s, In s pre -> leb s mp = true) ->
    (forall j s, (j < max_ind)%nat -> nth_error pre j = Some s -> leb mp s = false) ->
    first_max leb (pre ++ l) (argmax_scan leb mp max_ind (List.length pre) l).
Proof.
  induction l as [| v l' IH]; intros pre mp max_ind Hnth Hall Hbefore.
  - simpl. rewrite app_nil_r. exists mp. auto.
  - assert (Hlt : (max_ind < List.length pre)%nat).
    { apply nth_error_Some. congruence. }
    assert (Hlen : List.length (pre ++ [v]) = S (List.length pre)).
    { rewrite length_app. simpl. lia. }
    replace (pre ++ v :: l')%list with ((pre ++ [v]) ++ l')%list
      by (rewrite <- app_assoc; reflexivity).
    simpl. destruct (leb v mp) eqn:Hv; rewrite <- Hlen; apply IH.
    + rewrite nth_error_app1 by exact Hlt. exact Hnth.
    + intros s Hs. apply in_app_or in Hs. destruct Hs as [Hs | [<- | []]]; auto.
    + intros j s Hj Hs. rewrite nth_error_app1 in Hs by lia. eauto.
    + rewrite nth_error_app2 by lia. rewrite Nat.sub_diag. reflexivity.
    + intros s Hs. apply in_app_or in Hs. destruct Hs as [Hs | [<- | []]].
      * apply leb_trans with mp; [auto | apply leb_false_flip; exact Hv].
      * destruct (leb_total v v); assumption.
    + intros j s Hj Hs. rewrite nth_error_app1 in Hs by exact Hj.
      destruct (leb v s) eqn:Hvs; [| reflexivity].
      assert (leb v mp = true); [| congruence].
      apply leb_trans with s; [exact Hvs |].
      apply Hall. eapply nth_error_In. exact Hs.
Qed.

Lemma argmax_first_max l :
  l <> [] -> exists r, argmax leb l = Ok r /\ first_max leb l r.
Proof.
  destruct l as [| v l']; [congruence | intros _].
  exists (argmax_scan leb v 0 1 l'). split; [reflexivity |].
  apply (argmax_scan_first_max l' [v] v 0%nat).
  - reflexivity.
  - intros s [<- | []]. destruct (leb_total v v); assumption.
  - intros j s Hj. lia.
Qed.

(** C4.  For a volume with at least one plane, [get_focused_z_slice]
    returns the per-plane scores and an index best_z below the number of
    planes that is the first index holding the maximum score: no score is
    above the one at best_z and every score before best_z is strictly
    below it. *)
Theorem focus_first_max (image : volume) :
  (1 <= List.length image)%nat ->
  exists best_z,
    get_focused_z_slice leb std image = Ok (map std image, best_z) /\
    (best_z < List.length image)%nat /\
    first_max leb (map std image) best_z.
Proof.
  intros Hz.
  destruct (argmax_first_max (map std image)) as (r & Hr & Hfirst).
  { destruct image; simpl in *; [lia | discriminate]. }
  exists r. unfold get_focused_z_slice. rewrite Hr. simpl.
  split; [reflexivity | split; [| exact Hfirst]].
  destruct Hfirst as (m & Hm & _).
  rewrite <- (length_map std). apply nth_error_Some. congruence.
Qed.

End FocusProperties.


Lemma focus_first_max_witness :
  (1 <= List.length [[[1; 1]; [1; 1]]; [[0; 9]; [9; 0]]; [[9; 0]; [0; 9]]])%nat /\
  exists best_z,
    get_focused_z_slice Z.leb scaled_variance
      [[[1; 1]; [1; 1]]; [[0; 9]; [9; 0]]; [[9; 0]; [0; 9]]]
    = Ok ([0; 324; 324], best_z) /\
    (best_z < 3)%nat /\
    first_max Z.leb [0; 324; 324] best_z.
Proof.
  split; [simpl; lia |].
  refine (focus_first_max Z Z.leb scaled_variance _ _
            [[[1; 1]; [1; 1]]; [[0; 9]; [9; 0]]; [[9; 0]; [0; 9]]] _).
  - intros a b. destruct (Z.leb_spec a b); [left; reflexivity |].
    right. apply Z.leb_le. lia.
  - intros a b c Hab Hbc. apply Z.leb_le. apply Z.leb_le in Hab, Hbc. lia.
  - simpl. lia.
Defined.

(** On a tie the first of the two planes is selected. *)
Example focus_tie_first :
  get_focused_z_slice Z.leb scaled_variance
    [[[1; 1]; [1; 1]]; [[0; 9]; [9; 0]]; [[9; 0]; [0; 9]]]
  = Ok ([0; 324; 324], 1%nat).
Proof. reflexivity. Qed.

(** * Projection *)

Lemma pixel_reduce_axis0 f dy dx stack y x :
  (y < dy)%nat -> (x < dx)%nat ->
  pixel (reduce_axis0 f dy dx stack) y x = f (along_axis0 stack y x).
Proof.
  intros Hy Hx. unfold pixel, reduce_axis0.
  set (row := fun y => map (fun x => f (along_axis0 stack y x)) (seq 0 dx)).
  rewrite (nth_indep _ [] (row 0%nat)) by (rewrite length_map, length_seq; exact Hy).
  rewrite (map_nth row), seq_nth by exact Hy. simpl. unfold row.
  set (cell := fun x => f (along_axis0 stack y x)).
  rewrite (nth_indep _ 0 (cell 0%nat)) by (rewrite length_map, length_seq; exact Hx).
  rewrite (map_nth cell), seq_nth by exact Hx. reflexivity.
Qed.

(** The uint16 accumulator holds the sum modulo 2^16. *)
Lemma sum_uint16_from l :
  forall a, fold_left (fun acc v => wrap16 (acc + v)) l (wrap16 a) = wrap16 (a + Z_sum l).
Proof.
  induction l as [| v l' IH]; intros a; simpl.
  - rewrite Z.add_0_r. reflexivity.
  - replace (wrap16 (wrap16 a + v)) with (wrap16 (a + v))
      by (unfold wrap16; rewrite Z.add_mod_idemp_l by lia; reflexivity).
    rewrite IH. f_equal. lia.
Qed.

Lemma sum_uint16_mod l : sum_uint16 l = Z_sum l mod 65536.
Proof. apply (sum_uint16_from l 0). Qed.

Lemma along_axis0_length stack y x :
  List.length (along_axis0 stack y x) = List.length stack.
Proof. apply length_map. Qed.

(** As long as the sum of a pixel fits in 16 bits the mean rule gives the
    truncated mean. *)
Lemma mean_exact_when_sum_fits self dy dx stack y x :
  projection_type self = "mean" ->
  (y < dy)%nat -> (x < dx)%nat ->
  0 <= Z_sum (along_axis0 stack y x) <= 65535 ->
  exists p,
    perform_projection self dy dx stack = Ok p /\
    pixel p y x = Z_sum (along_axis0 stack y x) / Z.of_nat (List.length stack).
Proof.
  intros Hrule Hy Hx Hfit. unfold perform_projection. rewrite Hrule. simpl.
  eexists. split; [reflexivity |].
  rewrite pixel_reduce_axis0 by assumption.
  unfold mean_uint16. rewrite sum_uint16_mod, along_axis0_length.
  rewrite Z.mod_small by lia. reflexivity.
Qed.

(** The mean of two slices holding 3 and 4 at a pixel is 3. *)
Example mean_of_3_4 :
  perform_projection (init ["WL508"] "mean" 1) 1 1 [[[3]]; [[4]]] = Ok [[3]].
Proof. reflexivity. Qed.

(** C7.  The mean rule does not give the truncated arithmetic mean for
    every stack of 16-bit intensities: two slices with 40000 at a pixel
    give 7232 = (80000 mod 65536) / 2, where the mean is 40000. *)
Theorem mean_of_40000_40000 :
  perform_projection (init ["WL508"] "mean" 1) 1 1 [[[40000]]; [[40000]]]
    = Ok [[7232]] /\
  7232 <> (40000 + 40000) / 2.
Proof. split; [reflexivity | discriminate]. Qed.

(** C10.  Under the mean rule the sum along the depth axis is accumulated
    in unsigned 16-bit arithmetic before the division: at a pixel whose sum
    of intensities exceeds 65535 the output is the truncated quotient of
    (sum mod 2^16) by the number of slices.  That value times the number of
    slices is at least 2^16 short of the sum, so it is not the mean. *)
Theorem mean_wraps_at_16_bits self dy dx stack y x :
  projection_type self = "mean" ->
  (y < dy)%nat -> (x < dx)%nat ->
  65535 < Z_sum (along_axis0 stack y x) ->
  exists p,
    perform_projection self dy dx stack = Ok p /\
    pixel p y x =
      (Z_sum (along_axis0 stack y x) mod 2 ^ 16) / Z.of_nat (List.length stack) /\
    pixel p y x * Z.of_nat (List.length stack) + 2 ^ 16
      <= Z_sum (along_axis0 stack y x).
Proof.
  intros Hrule Hy Hx Hsum. unfold perform_projection. rewrite Hrule. simpl.
  eexists. split; [reflexivity |].
  rewrite pixel_reduce_axis0 by assumption.
  unfold mean_uint16. rewrite sum_uint16_mod, along_axis0_length.
  change (2 ^ 16) with 65536.
  split; [reflexivity |].
  set (s := Z_sum (along_axis0 stack y x)) in *.
  set (n := Z.of_nat (List.length stack)).
  assert (Hn : 0 < n).
  { subst n s. destruct stack; [simpl in Hsum; lia | simpl; lia]. }
  pose proof (Z.mod_pos_bound s 65536 ltac:(lia)) as Hm.
  pose proof (Z.div_mod s 65536 ltac:(lia)) as Hs.
  pose proof (Z.mul_div_le (s mod 65536) n Hn) as Hq.
  assert (1 <= s / 65536) by (apply Z.div_le_lower_bound; lia).
  nia.
Qed.

Lemma mean_wraps_at_16_bits_witness :
  projection_type (init ["WL508"] "mean" 1) = "mean" /\
  (0 < 1)%nat /\ (0 < 1)%nat /\
  65535 < Z_sum (along_axis0 [[[40000]]; [[40000]]] 0 0) /\
  exists p,
    perform_projection (init ["WL508"] "mean" 1) 1 1 [[[40000]]; [[40000]]] = Ok p /\
    pixel p 0 0 = (80000 mod 2 ^ 16) / 2 /\
    pixel p 0 0 * 2 + 2 ^ 16 <= 80000.
Proof.
  split; [reflexivity | split; [lia | split; [lia | split; [simpl; lia |]]]].
  apply (mean_wraps_at_16_bits (init ["WL508"] "mean" 1) 1 1
           [[[40000]]; [[40000]]] 0 0); [reflexivity | lia | lia | simpl; lia].
Defined.

(** * Per-timepoint aggregation *)


Lemma range_n_slices self best_z total_z :
  snd (calculate_projection_range self best_z total_z) = 2 * z_range self + 1.
Proof. range_cases; reflexivity. Qed.

(** ** Ranges and [take] *)

Lemma py_range_cons start stop :
  start < stop -> py_range start stop = start :: py_range (start + 1) stop.
Proof.
  intros H. unfold py_range.
  replace (Z.to_nat (stop - start)) with (S (Z.to_nat (stop - (start + 1)))) by lia.
  simpl. f_equal; [lia |].
  rewrite <- seq_shift, map_map. apply map_ext. intros i. lia.
Qed.

Lemma py_range_snoc start stop :
  start < stop -> py_range start stop = (py_range start (stop - 1) ++ [stop - 1])%list.
Proof.
  intros H. unfold py_range.
  replace (Z.to_nat (stop - start)) with (S (Z.to_nat (stop - 1 - start))) by lia.
  rewrite seq_S, map_app. simpl. do 2 f_equal. lia.
Qed.

Lemma range_first_py start stop :
  start < stop -> range_first (py_range start stop) = Ok start.
Proof. intros H. rewrite py_range_cons by exact H. reflexivity. Qed.

Lemma range_last_py start stop :
  start < stop -> range_last (py_range start stop) = Ok (stop - 1).
Proof.
  intros H. rewrite py_range_snoc by exact H.
  unfold range_last. rewrite rev_app_distr. reflexivity.
Qed.

Lemma py_range_in start stop i :
  In i (py_range start stop) -> start <= i < stop.
Proof.
  unfold py_range. rewrite in_map_iff. intros (k & <- & Hk).
  apply in_seq in Hk. lia.
Qed.

Lemma py_range_length start stop :
  List.length (py_range start stop) = Z.to_nat (stop - start).
Proof. unfold py_range. rewrite length_map, length_seq. reflexivity. Qed.

Lemma take1_in_bounds {A : Type} (a : list A) (i : Z) :
  0 <= i < Z.of_nat (List.length a) -> exists v, take1 a i = Ok v.
Proof.
  intros Hi. unfold take1.
  destruct (Z.ltb_spec i 0); [lia |].
  destruct (Z.leb_spec 0 i); [| lia].
  destruct (Z.ltb_spec i (Z.of_nat (List.length a))); [| lia].
  simpl. destruct (nth_error a (Z.to_nat i)) eqn:Hn; [eauto |].
  apply nth_error_None in Hn. lia.
Qed.

Lemma take1_of_nat {A : Type} (a : list A) (t : nat) (d : A) :
  (t < List.length a)%nat -> take1 a (Z.of_nat t) = Ok (nth t a d).
Proof.
  intros Ht. unfold take1.
  destruct (Z.ltb_spec (Z.of_nat t) 0); [lia |].
  destruct (Z.leb_spec 0 (Z.of_nat t)); [| lia].
  destruct (Z.ltb_spec (Z.of_nat t) (Z.of_nat (List.length a))); [| lia].
  simpl. rewrite Nat2Z.id. rewrite (nth_error_nth' a d Ht). reflexivity.
Qed.

Lemma take_in_bounds {A : Type} (a : list A) (indices : list Z) :
  (forall i, In i indices -> 0 <= i < Z.of_nat (List.length a)) ->
  exists vs, take a indices = Ok vs /\ List.length vs = List.length indices.
Proof.
  induction indices as [| i rest IH]; intros Hall.
  - exists []. split; reflexivity.
  - destruct (take1_in_bounds a i) as (v & Hv); [apply Hall; left; reflexivity |].
    destruct IH as (vs & Hvs & Hlen); [intros j Hj; apply Hall; right; exact Hj |].
    exists (v :: vs). simpl. rewrite Hv, Hvs. simpl. split; [reflexivity | lia].
Qed.

Lemma take_py_range {A : Type} (a : list A) (start stop : Z) :
  0 <= start -> start < stop -> stop <= Z.of_nat (List.length a) ->
  exists vs, take a (py_range start stop) = Ok vs /\ vs <> [].
Proof.
  intros H0 Hlt Hn.
  destruct (take_in_bounds a (py_range start stop)) as (vs & Hvs & Hlen).
  { intros i Hi. apply py_range_in in Hi. lia. }
  exists vs. split; [exact Hvs |].
  rewrite py_range_length in Hlen. destruct vs; [simpl in Hlen; lia | discriminate].
Qed.

(** ** Dictionaries *)

Lemma dict_get_set {V : Type} (d : list (string * V)) k v :
  dict_get (dict_set d k v) k = Some v.
Proof.
  induction d as [| [k' v'] d' IH]; simpl.
  - rewrite String.eqb_refl. reflexivity.
  - destruct (String.eqb k' k) eqn:Hk; simpl.
    + rewrite String.eqb_refl. reflexivity.
    + rewrite Hk. exact IH.
Qed.

Lemma nth_error_map_seq {A : Type} (g : nat -> A) (n t : nat) :
  (t < n)%nat -> nth_error (map g (seq 0 n)) t = Some (g t).
Proof.
  intros Ht. rewrite nth_error_map.
  rewrite (nth_error_nth' (seq 0 n) 0%nat) by (rewrite length_seq; exact Ht).
  rewrite seq_nth by exact Ht. reflexivity.
Qed.

Section Aggregation.

Variable score : Type.
Variable leb : score -> score -> bool.
Variable std : plane -> score.


(** The scan never leaves the list. *)
Lemma argmax_scan_lt l :
  forall mp max_ind i,
    (max_ind < i)%nat ->
    (argmax_scan leb mp max_ind i l < i + List.length l)%nat.
Proof.
  induction l as [| v l' IH]; intros mp max_ind i Hlt; simpl.
  - lia.
  - destruct (leb v mp).
    + specialize (IH mp max_ind (S i)). lia.
    + specialize (IH v i (S i)). lia.
Qed.

Lemma get_focused_z_slice_ok (image : volume) :
  (1 <= List.length image)%nat ->
  get_focused_z_slice leb std image = Ok (map std image, best_z_of leb std image) /\
  (best_z_of leb std image < List.length image)%nat.
Proof.
  intros Hz. unfold best_z_of, get_focused_z_slice.
  destruct image as [| p image']; [simpl in Hz; lia |].
  simpl. split; [reflexivity |].
  pose proof (argmax_scan_lt (map std image') (std p) 0%nat 1%nat) as H.
  rewrite length_map in H. lia.
Qed.

(** Up to the call of [perform_projection] the body cannot fail on a
    well-shaped image: it reaches the call with a non-empty stack. *)
Lemma timepoint_body_reaches_projection self f st t :
  shape_ok f ->
  0 <= z_range self ->
  (t < nth 0 (img_shape f) 0)%nat ->
  exists img_z_stack,
    img_z_stack <> [] /\
    timepoint_body leb std self f st t =
      (img_proj <- perform_projection self (nth 2 (img_shape f) 0%nat)
                     (nth 3 (img_shape f) 0%nat) img_z_stack ;;
       _ <- cast_same_kind_uint16 (projection_dtype self (img_dtype f)) img_proj ;;
       Ok (after_timepoint leb std self f st t img_proj)).
Proof.
  intros (Hdim & Hframes & Hz & Hvol) Hh Ht.
  unfold timepoint_body, after_timepoint, range_at.
  rewrite (take1_of_nat (img_frames f) t []) by lia.
  set (img_tp := nth t (img_frames f) []).
  assert (Hlen : List.length img_tp = nth 1 (img_shape f) 0%nat).
  { apply Hvol. apply nth_In. lia. }
  destruct (get_focused_z_slice_ok img_tp) as (Hfocus & Hbest); [lia |].
  cbn [bind]. rewrite Hfocus. cbn [bind].
  pose proof (range_n_slices self (Z.of_nat (best_z_of leb std img_tp))
                (Z.of_nat (nth 1 (img_shape f) 0%nat))) as Hn.
  destruct (calculate_projection_range self (Z.of_nat (best_z_of leb std img_tp))
              (Z.of_nat (nth 1 (img_shape f) 0%nat))) as [[start stop] n_slices] eqn:Hr.
  simpl in Hn. subst n_slices.
  assert (Hbz : 0 <= Z.of_nat (best_z_of leb std img_tp)
                 < Z.of_nat (nth 1 (img_shape f) 0%nat)) by lia.
  destruct (range_bounds _ _ _ _ _ _ Hbz Hh Hr) as (H0 & Hlt & Hstop).
  rewrite range_first_py, range_last_py by exact Hlt. cbn [bind].
  destruct (take_py_range img_tp start stop) as (vs & Hvs & Hne); [lia | lia | lia |].
  rewrite Hvs. cbn [bind fst snd].
  exists vs. split; [exact Hne |].
  replace (stop - 1 + 1) with stop by lia.
  destruct (perform_projection self _ _ vs) as [img_proj | e]; cbn [bind];
    [| reflexivity].
  unfold cast_same_kind_uint16.
  destruct (can_cast_same_kind_uint16 _); reflexivity.
Qed.

Lemma perform_projection_supported self dy dx stack :
  supported self -> stack <> [] ->
  exists img_proj, perform_projection self dy dx stack = Ok img_proj.
Proof.
  intros Hrule Hne. unfold perform_projection.
  destruct Hrule as [-> | ->]; simpl; [eauto |].
  destruct stack; [congruence | eauto].
Qed.

Lemma perform_projection_unsupported self dy dx stack :
  projection_type self <> "mean" -> projection_type self <> "max" ->
  perform_projection self dy dx stack =
    Raise (ValueError ("Unsupported projection type: " ++ projection_type self)).
Proof.
  intros Hmean Hmax. unfold perform_projection.
  apply String.eqb_neq in Hmean, Hmax. rewrite Hmean, Hmax. reflexivity.
Qed.

Lemma timepoint_body_ok self f st t :
  shape_ok f -> 0 <= z_range self -> supported self -> castable self f ->
  (t < nth 0 (img_shape f) 0)%nat ->
  exists img_proj,
    timepoint_body leb std self f st t = Ok (after_timepoint leb std self f st t img_proj).
Proof.
  intros Hshape Hh Hrule Hcast Ht.
  destruct (timepoint_body_reaches_projection self f st t Hshape Hh Ht)
    as (stack & Hne & ->).
  destruct (perform_projection_supported self (nth 2 (img_shape f) 0%nat)
              (nth 3 (img_shape f) 0%nat) stack Hrule Hne) as (img_proj & ->).
  exists img_proj. cbn [bind]. unfold cast_same_kind_uint16.
  unfold castable in Hcast. rewrite Hcast. reflexivity.
Qed.

(** The loop appends one entry per timepoint to each of the five lists. *)
Lemma for_each_ok self f :
  shape_ok f -> 0 <= z_range self -> supported self -> castable self f ->
  forall ts st,
    (forall t, In t ts -> (t < nth 0 (img_shape f) 0)%nat) ->
    exists st',
      for_each (timepoint_body leb std self f) ts st = Ok st' /\
      timepoints st' = (timepoints st ++ map (fun t => Z.of_nat t + 1) ts)%list /\
      n_proj_z st' = (n_proj_z st ++ map (fun _ => 2 * z_range self + 1) ts)%list /\
      proj_types st' = (proj_types st ++ map (fun _ => projection_type self) ts)%list /\
      start_z st' =
        (start_z st ++ map (fun t => fst (fst (range_at leb std self f t)) + 1) ts)%list /\
      stop_z st' =
        (stop_z st ++ map (fun t => snd (fst (range_at leb std self f t))) ts)%list.
Proof.
  intros Hshape Hh Hrule Hcast. induction ts as [| t ts' IH]; intros st Hts.
  - exists st. simpl. rewrite !app_nil_r. repeat split; reflexivity.
  - destruct (timepoint_body_ok self f st t Hshape Hh Hrule Hcast) as (img_proj & Hbody).
    { apply Hts. left. reflexivity. }
    destruct (IH (after_timepoint leb std self f st t img_proj)) as (st' & Hloop & H1 & H2 & H3 & H4 & H5).
    { intros t' Ht'. apply Hts. right. exact Ht'. }
    exists st'. simpl. rewrite Hbody. cbn [bind]. split; [exact Hloop |].
    rewrite H1, H2, H3, H4, H5. simpl. rewrite <- !app_assoc. simpl.
    repeat split; reflexivity.
Qed.

End Aggregation.

Section Reports.

Variable score : Type.
Variable leb : score -> score -> bool.
Variable std : plane -> score.

Lemma range_at_z_range self self' f t :
  z_range self' = z_range self ->
  range_at leb std self' f t = range_at leb std self f t.
Proof.
  intros H. unfold range_at, calculate_projection_range. rewrite H. reflexivity.
Qed.

(** With an unsupported rule the body of the loop raises, whatever the
    image: the last call of the body always does. *)
Lemma timepoint_body_unsupported self f st t :
  projection_type self <> "mean" ->
  projection_type self <> "max" ->
  exists e, timepoint_body leb std self f st t = Raise e.
Proof.
  intros Hmean Hmax. unfold timepoint_body.
  repeat (cbn [bind];
    match goal with
    | |- exists e, Raise ?e0 = Raise e => exists e0; reflexivity
    | |- exists e, bind (perform_projection ?s ?a ?b ?c) _ = _ =>
        rewrite (perform_projection_unsupported s a b c Hmean Hmax)
    | |- exists e, bind ?r _ = _ => destruct r
    | |- exists e, match ?p with pair _ _ => _ end = _ => destruct p
    end).
Qed.

(** C6.  For a well-shaped image, a half-width z_range >= 0, a supported
    rule and projected planes that can be cast to uint16 (the mean rule, or
    an image of an unsigned dtype), [process_tiff_file] stores under the
    stem of the file one report entry per timepoint t, equal to
    (t + 1, n_slices, rule, start + 1, stop) where (start, stop, _) is the
    range selected for t: timepoint and start are shifted by one, stop is
    the exclusive stop as it is, and the number of slices is the requested
    2 * z_range + 1 whatever stop - start is. *)
Theorem report_entries w f :
  shape_ok f ->
  0 <= z_range (projector w) ->
  supported (projector w) ->
  castable (projector w) f ->
  exists r,
    dict_get (report_data (projector (process_tiff_file leb std w f)))
      (file_stem f) = Some r /\
    List.length (Timepoint r) = nth 0 (img_shape f) 0%nat /\
    forall t, (t < nth 0 (img_shape f) 0)%nat ->
      let '(start, stop, _) := range_at leb std (projector w) f t in
      nth_error (Timepoint r) t = Some (Z.of_nat t + 1) /\
      nth_error (Numb_projected_z r) t = Some (2 * z_range (projector w) + 1) /\
      nth_error (Type_of_proj r) t = Some (projection_type (projector w)) /\
      nth_error (Start_z r) t = Some (start + 1) /\
      nth_error (Stop_z r) t = Some stop.
Proof.
  intros Hshape Hh Hrule Hcast. unfold process_tiff_file.
  pose proof Hshape as (Hdim & _). rewrite Hdim. simpl Nat.leb. cbv iota.
  set (w1 := print (count_processed w) ("Processing TIFF: " ++ file_name f)).
  set (st0 := {| img_proj_tp := _ |}).
  destruct (for_each_ok score leb std (projector w1) f Hshape Hh Hrule Hcast
              (seq 0 (nth 0 (img_shape f) 0%nat)) st0)
    as (st' & Hloop & H1 & H2 & H3 & H4 & H5).
  { intros t Ht. apply in_seq in Ht. lia. }
  rewrite Hloop. eexists. split; [apply dict_get_set |].
  cbn [Timepoint Numb_projected_z Type_of_proj Start_z Stop_z].
  rewrite H1, H2, H3, H4, H5. cbn [app timepoints n_proj_z proj_types start_z stop_z st0].
  split; [rewrite length_map, length_seq; reflexivity |].
  intros t Ht.
  rewrite !nth_error_map_seq by exact Ht. cbv beta.
  rewrite (range_at_z_range (projector w) (projector w1) f t) by reflexivity.
  destruct (range_at leb std (projector w) f t) as [[start stop] n].
  repeat split; reflexivity.
Qed.

(** C8.  With a rule other than 'mean' and 'max', [perform_projection]
    raises the error for an unsupported projection type on every stack;
    [process_tiff_file] on an image with at least one timepoint then
    leaves the stored reports and the saved files as they were, and on a
    well-shaped image it is that error which ends the file. *)
Theorem unsupported_rule_fails self :
  projection_type self <> "mean" ->
  projection_type self <> "max" ->
  (forall dy dx stack,
     perform_projection self dy dx stack =
       Raise (ValueError ("Unsupported projection type: " ++ projection_type self))) /\
  (forall w f,
     projector w = self ->
     (3 < List.length (img_shape f))%nat ->
     (1 <= nth 0 (img_shape f) 0)%nat ->
     report_data (projector (process_tiff_file leb std w f)) = report_data self /\
     saved (process_tiff_file leb std w f) = saved w) /\
  (forall w f,
     projector w = self ->
     shape_ok f ->
     (1 <= nth 0 (img_shape f) 0)%nat ->
     0 <= z_range self ->
     stdout (process_tiff_file leb std w f) =
       (stdout w ++
        [("Processing TIFF: " ++ file_name f)%string;
         ("Error processing " ++ file_name f ++
            ": Unsupported projection type: " ++ projection_type self)%string])%list).
Proof.
  intros Hmean Hmax. split; [| split].
  - intros dy dx stack. apply perform_projection_unsupported; assumption.
  - intros w f Hw Hdim HT. unfold process_tiff_file.
    destruct (Nat.leb_spec (List.length (img_shape f)) 3); [lia |].
    set (w1 := print (count_processed w) ("Processing TIFF: " ++ file_name f)).
    set (st0 := {| img_proj_tp := _ |}).
    assert (Hfail : exists e,
              for_each (timepoint_body leb std (projector w1) f)
                (seq 0 (nth 0 (img_shape f) 0%nat)) st0 = Raise e).
    { destruct (nth 0 (img_shape f) 0%nat) as [| T']; [lia |].
      cbn [seq for_each].
      destruct (timepoint_body_unsupported (projector w1) f st0 0%nat) as (e & ->).
      - simpl. rewrite Hw. exact Hmean.
      - simpl. rewrite Hw. exact Hmax.
      - exists e. reflexivity. }
    destruct Hfail as (e & ->). simpl. rewrite Hw. split; reflexivity.
  - intros w f Hw Hshape HT Hh. unfold process_tiff_file.
    pose proof Hshape as (Hdim & _). rewrite Hdim. simpl Nat.leb. cbv iota.
    set (w1 := print (count_processed w) ("Processing TIFF: " ++ file_name f)).
    set (st0 := {| img_proj_tp := _ |}).
    assert (Hseq : seq 0 (nth 0 (img_shape f) 0%nat) =
                   0%nat :: seq 1 (nth 0 (img_shape f) 0 - 1)%nat).
    { destruct (nth 0 (img_shape f) 0%nat); [lia |].
      simpl. rewrite Nat.sub_0_r. reflexivity. }
    rewrite Hseq. cbn [for_each].
    destruct (timepoint_body_reaches_projection score leb std (projector w1) f st0 0%nat)
      as (stack & _ & ->).
    + exact Hshape.
    + simpl. rewrite Hw. exact Hh.
    + lia.
    + rewrite (perform_projection_unsupported (projector w1))
        by (simpl; rewrite Hw; assumption).
      simpl. rewrite Hw. rewrite <- app_assoc. reflexivity.
Qed.

End Reports.

Lemma demo_file_shape_ok : shape_ok demo_file.
Proof.
  unfold shape_ok. simpl. repeat split; try lia.
  intros v [<- | [<- | []]]; reflexivity.
Qed.

(** The report of the small image under the max rule: the window of three
    slices does not fit in two planes, the realized range is 1..2 and the
    reported number of slices is still 3. *)
Example demo_report :
  dict_get
    (report_data (projector
       (process_tiff_file Z.leb scaled_variance (demo_world "max") demo_file)))
    "cell_WL508"
  = Some {| Timepoint := [1; 2];
            Numb_projected_z := [3; 3];
            Type_of_proj := ["max"; "max"];
            Start_z := [1; 1];
            Stop_z := [2; 2] |}.
Proof. vm_compute. reflexivity. Qed.

Example demo_saved :
  saved (process_tiff_file Z.leb scaled_variance (demo_world "max") demo_file)
  = [("cell_WL508_maxproj.tif", [[[1; 9]; [9; 1]]; [[1; 9]; [9; 1]]])].
Proof. vm_compute. reflexivity. Qed.

Lemma report_entries_witness :
  shape_ok demo_file /\
  0 <= z_range (projector (demo_world "max")) /\
  supported (projector (demo_world "max")) /\
  castable (projector (demo_world "max")) demo_file /\
  exists r,
    dict_get
      (report_data (projector
         (process_tiff_file Z.leb scaled_variance (demo_world "max") demo_file)))
      (file_stem demo_file) = Some r /\
    List.length (Timepoint r) = nth 0 (img_shape demo_file) 0%nat /\
    forall t, (t < nth 0 (img_shape demo_file) 0)%nat ->
      let '(start, stop, _) :=
        range_at Z.leb scaled_variance (projector (demo_world "max")) demo_file t in
      nth_error (Timepoint r) t = Some (Z.of_nat t + 1) /\
      nth_error (Numb_projected_z r) t =
        Some (2 * z_range (projector (demo_world "max")) + 1) /\
      nth_error (Type_of_proj r) t =
        Some (projection_type (projector (demo_world "max"))) /\
      nth_error (Start_z r) t = Some (start + 1) /\
      nth_error (Stop_z r) t = Some stop.
Proof.
  assert (H1 : shape_ok demo_file) by exact demo_file_shape_ok.
  assert (H2 : 0 <= z_range (projector (demo_world "max"))) by (simpl; lia).
  assert (H3 : supported (projector (demo_world "max"))) by (right; reflexivity).
  assert (H4 : castable (projector (demo_world "max")) demo_file) by reflexivity.
  split; [exact H1 | split; [exact H2 | split; [exact H3 | split; [exact H4 |]]]].
  exact (report_entries Z Z.leb scaled_variance (demo_world "max") demo_file
           H1 H2 H3 H4).
Defined.

(** The run of the small image under an unknown rule. *)
Example demo_median :
  process_tiff_file Z.leb scaled_variance (demo_world "median") demo_file
  = {| projector :=
         {| channels := ["WL508"]; projection_type := "median"; z_range := 1;
            report_data := []; processed_count := 1 |};
       saved := [];
       stdout := ["Processing TIFF: cell_WL508.tif";
                  "Error processing cell_WL508.tif: Unsupported projection type: median"] |}.
Proof. vm_compute. reflexivity. Qed.

Lemma unsupported_rule_fails_witness :
  projection_type (init ["WL508"] "median" 1) <> "mean" /\
  projection_type (init ["WL508"] "median" 1) <> "max" /\
  perform_projection (init ["WL508"] "median" 1) 1 1 [[[3]]; [[4]]] =
    Raise (ValueError "Unsupported projection type: median") /\
  report_data (projector
    (process_tiff_file Z.leb scaled_variance (demo_world "median") demo_file)) = [] /\
  saved (process_tiff_file Z.leb scaled_variance (demo_world "median") demo_file) = [].
Proof.
  assert (H1 : projection_type (init ["WL508"] "median" 1) <> "mean")
    by (simpl; discriminate).
  assert (H2 : projection_type (init ["WL508"] "median" 1) <> "max")
    by (simpl; discriminate).
  split; [exact H1 | split; [exact H2 |]].
  destruct (unsupported_rule_fails Z Z.leb scaled_variance
              (init ["WL508"] "median" 1) H1 H2) as (Hcall & Hkeep & _).
  split; [exact (Hcall 1%nat 1%nat [[[3]]; [[4]]]) |].
  apply (Hkeep (demo_world "median") demo_file); [reflexivity | simpl; lia | simpl; lia].
Defined.

(** * Further properties of the range *)

(** The realized window has min(n_slices, total_z) slices: the requested
    number when the stack is deep enough, the whole stack otherwise. *)
Theorem range_size self best_z total_z :
  0 <= best_z < total_z ->
  0 <= z_range self ->
  let '(start, stop, n_slices) := calculate_projection_range self best_z total_z in
  stop - start = Z.min n_slices total_z.
Proof. intros Hb Hh. range_cases; lia. Qed.

Lemma range_size_witness :
  0 <= 1 < 2 /\ 0 <= z_range (init ["WL508"] "max" 1) /\
  let '(start, stop, n_slices) :=
    calculate_projection_range (init ["WL508"] "max" 1) 1 2 in
  stop - start = Z.min n_slices 2.
Proof.
  split; [lia | split; [simpl; lia |]].
  apply (range_size (init ["WL508"] "max" 1) 1 2); simpl; lia.
Defined.

(** The best-focused slice is always one of the projected slices. *)
Theorem range_contains_best self best_z total_z :
  0 <= best_z < total_z ->
  0 <= z_range self ->
  let '(start, stop, _) := calculate_projection_range self best_z total_z in
  start <= best_z /\ best_z < stop.
Proof. intros Hb Hh. range_cases; lia. Qed.

Lemma range_contains_best_witness :
  0 <= 4 < 5 /\ 0 <= z_range (init ["WL508"] "max" 1) /\
  let '(start, stop, _) :=
    calculate_projection_range (init ["WL508"] "max" 1) 4 5 in
  start <= 4 /\ 4 < stop.
Proof.
  split; [lia | split; [simpl; lia |]].
  apply (range_contains_best (init ["WL508"] "max" 1) 4 5); simpl; lia.
Defined.

(** With a negative half-width the range is empty or reversed, whatever the
    best slice is: no clamp applies and stop <= start. *)
Lemma range_negative_z_range self best_z total_z :
  0 <= best_z < total_z ->
  z_range self < 0 ->
  calculate_projection_range self best_z total_z =
    (best_z - z_range self, best_z + z_range self + 1, 2 * z_range self + 1) /\
  py_range (best_z - z_range self) (best_z + z_range self + 1) = [].
Proof.
  intros Hb Hh. split.
  - apply range_symmetric; unfold start_underflow, stop_overflow; lia.
  - unfold py_range.
    replace (Z.to_nat (best_z + z_range self + 1 - (best_z - z_range self)))
      with 0%nat by lia.
    reflexivity.
Qed.

(** * Further properties of the projection *)

Lemma fold_max_ge l :
  forall a, a <= fold_left Z.max l a /\ forall v, In v l -> v <= fold_left Z.max l a.
Proof.
  induction l as [| w l' IH]; intros a; simpl.
  - split; [lia | intros v []].
  - destruct (IH (Z.max a w)) as (Ha & Hl). split; [lia |].
    intros v [<- | Hv]; [lia | auto].
Qed.

Lemma fold_max_in l :
  forall a, fold_left Z.max l a = a \/ In (fold_left Z.max l a) l.
Proof.
  induction l as [| w l' IH]; intros a; simpl.
  - left. reflexivity.
  - destruct (IH (Z.max a w)) as [H | H]; [| right; right; exact H].
    rewrite H. destruct (Z.max_spec a w) as [[_ ->] | [_ ->]]; [right; left | left];
      reflexivity.
Qed.

Lemma max_list_upper l v : In v l -> v <= max_list l.
Proof.
  destruct l as [| a l']; [intros [] |]. simpl.
  destruct (fold_max_ge l' a) as (Ha & Hl).
  intros [<- | Hv]; [exact Ha | auto].
Qed.

Lemma max_list_in l : l <> [] -> In (max_list l) l.
Proof.
  destruct l as [| a l']; [congruence | intros _]. simpl.
  destruct (fold_max_in l' a) as [-> | H]; [left; reflexivity | right; exact H].
Qed.

Lemma along_axis0_nonempty stack y x : stack <> [] -> along_axis0 stack y x <> [].
Proof. destruct stack; [congruence | discriminate]. Qed.

(** Under the max rule every output pixel is the largest of the values of
    that pixel along the stack: one of them, and none is above it. *)
Theorem max_projection_is_maximum self dy dx stack y x :
  projection_type self = "max" ->
  stack <> [] ->
  (y < dy)%nat -> (x < dx)%nat ->
  exists p,
    perform_projection self dy dx stack = Ok p /\
    In (pixel p y x) (along_axis0 stack y x) /\
    forall v, In v (along_axis0 stack y x) -> v <= pixel p y x.
Proof.
  intros Hrule Hne Hy Hx. unfold perform_projection. rewrite Hrule. simpl.
  destruct stack as [| p0 stack']; [congruence |].
  eexists. split; [reflexivity |].
  rewrite pixel_reduce_axis0 by assumption.
  split; [apply max_list_in; discriminate | apply max_list_upper].
Qed.

Lemma max_projection_is_maximum_witness :
  projection_type (init ["WL508"] "max" 1) = "max" /\
  [[[3; 8]]; [[5; 2]]] <> ([] : volume) /\
  (0 < 1)%nat /\ (1 < 2)%nat /\
  exists p,
    perform_projection (init ["WL508"] "max" 1) 1 2 [[[3; 8]]; [[5; 2]]] = Ok p /\
    In (pixel p 0 1) (along_axis0 [[[3; 8]]; [[5; 2]]] 0 1) /\
    forall v, In v (along_axis0 [[[3; 8]]; [[5; 2]]] 0 1) -> v <= pixel p 0 1.
Proof.
  split; [reflexivity | split; [discriminate | split; [lia | split; [lia |]]]].
  apply (max_projection_is_maximum (init ["WL508"] "max" 1) 1 2
           [[[3; 8]]; [[5; 2]]] 0 1); [reflexivity | discriminate | lia | lia].
Defined.

(** Under the mean rule every output pixel is an unsigned 16-bit value,
    whatever the intensities of the stack are. *)
Theorem mean_projection_in_uint16 self dy dx stack y x :
  projection_type self = "mean" ->
  stack <> [] ->
  (y < dy)%nat -> (x < dx)%nat ->
  exists p,
    perform_projection self dy dx stack = Ok p /\
    0 <= pixel p y x <= 65535.
Proof.
  intros Hrule Hne Hy Hx. unfold perform_projection. rewrite Hrule. simpl.
  eexists. split; [reflexivity |].
  rewrite pixel_reduce_axis0 by assumption.
  unfold mean_uint16. rewrite sum_uint16_mod, along_axis0_length.
  set (s := Z_sum (along_axis0 stack y x)).
  assert (Hn : 0 < Z.of_nat (List.length stack)).
  { destruct stack; [congruence | simpl; lia]. }
  pose proof (Z.mod_pos_bound s 65536 ltac:(lia)) as Hm.
  split.
  - apply Z.div_pos; lia.
  - apply Z.le_trans with (s mod 65536); [| lia].
    apply Z.div_le_upper_bound; [exact Hn | nia].
Qed.

Lemma mean_projection_in_uint16_witness :
  projection_type (init ["WL508"] "mean" 1) = "mean" /\
  [[[70000]]; [[-5]]] <> ([] : volume) /\
  (0 < 1)%nat /\ (0 < 1)%nat /\
  exists p,
    perform_projection (init ["WL508"] "mean" 1) 1 1 [[[70000]]; [[-5]]] = Ok p /\
    0 <= pixel p 0 0 <= 65535.
Proof.
  split; [reflexivity | split; [discriminate | split; [lia | split; [lia |]]]].
  apply (mean_projection_in_uint16 (init ["WL508"] "mean" 1) 1 1
           [[[70000]]; [[-5]]] 0 0); [reflexivity | discriminate | lia | lia].
Defined.

Lemma Z_sum_nonneg l : (forall v, In v l -> 0 <= v) -> 0 <= Z_sum l.
Proof.
  induction l as [| a l' IH]; intros H; simpl; [lia |].
  assert (0 <= a) by (apply H; left; reflexivity).
  assert (0 <= Z_sum l') by (apply IH; intros v Hv; apply H; right; exact Hv).
  lia.
Qed.

Lemma Z_sum_le_max l m :
  (forall v, In v l -> v <= m) -> Z_sum l <= Z.of_nat (List.length l) * m.
Proof.
  induction l as [| a l' IH]; intros H; [simpl; lia |].
  assert (a <= m) by (apply H; left; reflexivity).
  assert (Z_sum l' <= Z.of_nat (List.length l') * m)
    by (apply IH; intros v Hv; apply H; right; exact Hv).
  change (Z_sum (a :: l')) with (a + Z_sum l').
  change (List.length (a :: l')) with (S (List.length l')).
  rewrite Nat2Z.inj_succ. lia.
Qed.

(** On non-negative intensities the mean rule never gives more than the max
    rule at any pixel, wrap-around included. *)
Theorem mean_projection_le_max self_mean self_max dy dx stack y x :
  projection_type self_mean = "mean" ->
  projection_type self_max = "max" ->
  stack <> [] ->
  (y < dy)%nat -> (x < dx)%nat ->
  (forall v, In v (along_axis0 stack y x) -> 0 <= v) ->
  exists p_mean p_max,
    perform_projection self_mean dy dx stack = Ok p_mean /\
    perform_projection self_max dy dx stack = Ok p_max /\
    pixel p_mean y x <= pixel p_max y x.
Proof.
  intros Hmean Hmax Hne Hy Hx Hpos. unfold perform_projection.
  rewrite Hmean, Hmax. simpl.
  destruct stack as [| p0 stack'] eqn:Hstack; [congruence |]. rewrite <- Hstack in *.
  do 2 eexists. split; [reflexivity | split; [reflexivity |]].
  rewrite !pixel_reduce_axis0 by assumption.
  unfold mean_uint16. rewrite sum_uint16_mod.
  set (l := along_axis0 stack y x) in *.
  assert (Hn : 0 < Z.of_nat (List.length l)).
  { subst l. rewrite along_axis0_length, Hstack. simpl. lia. }
  clearbody l.
  pose proof (Z_sum_nonneg l Hpos) as H0.
  pose proof (Z_sum_le_max l (max_list l) (max_list_upper l)) as Hle.
  pose proof (Z.mod_le (Z_sum l) 65536 H0 ltac:(lia)) as Hmod.
  apply Z.div_le_upper_bound; [exact Hn |].
  exact (Z.le_trans _ _ _ Hmod Hle).
Qed.

Lemma mean_projection_le_max_witness :
  projection_type (init ["WL508"] "mean" 1) = "mean" /\
  projection_type (init ["WL508"] "max" 1) = "max" /\
  [[[40000]]; [[40000]]] <> ([] : volume) /\
  (0 < 1)%nat /\ (0 < 1)%nat /\
  (forall v, In v (along_axis0 [[[40000]]; [[40000]]] 0 0) -> 0 <= v) /\
  exists p_mean p_max,
    perform_projection (init ["WL508"] "mean" 1) 1 1 [[[40000]]; [[40000]]] = Ok p_mean /\
    perform_projection (init ["WL508"] "max" 1) 1 1 [[[40000]]; [[40000]]] = Ok p_max /\
    pixel p_mean 0 0 <= pixel p_max 0 0.
Proof.
  assert (H : forall v, In v (along_axis0 [[[40000]]; [[40000]]] 0 0) -> 0 <= v).
  { unfold along_axis0, pixel. simpl. intros v [<- | [<- | []]]; lia. }
  split; [reflexivity | split; [reflexivity | split; [discriminate |
    split; [lia | split; [lia | split; [exact H |]]]]]].
  apply (mean_projection_le_max (init ["WL508"] "mean" 1) (init ["WL508"] "max" 1)
           1 1 [[[40000]]; [[40000]]] 0 0);
    [reflexivity | reflexivity | discriminate | lia | lia | exact H].
Defined.

Lemma map_seq_nth {A : Type} (l : list A) (d : A) (g : nat -> A) :
  (forall i, (i < List.length l)%nat -> g i = nth i l d) ->
  map g (seq 0 (List.length l)) = l.
Proof.
  intros Hg. apply (nth_ext _ _ (g 0%nat) d).
  - rewrite length_map, length_seq. reflexivity.
  - intros n Hn. rewrite length_map, length_seq in Hn.
    rewrite (map_nth g), seq_nth by exact Hn. apply Hg. exact Hn.
Qed.

Lemma reduce_axis0_single f dy dx p :
  has_shape dy dx p ->
  (forall row v, In row p -> In v row -> f [v] = v) ->
  reduce_axis0 f dy dx [p] = p.
Proof.
  intros (Hdy & Hdx) Hf. unfold reduce_axis0. subst dy.
  apply (map_seq_nth p []). intros y Hy.
  assert (Hrow : In (nth y p []) p) by (apply nth_In; exact Hy).
  rewrite <- (Hdx _ Hrow).
  apply (map_seq_nth (nth y p []) 0). intros x Hx.
  unfold along_axis0, pixel. simpl. apply (Hf (nth y p [])); [exact Hrow |].
  apply nth_In. exact Hx.
Qed.

Lemma astype_uint16_id p : is_uint16 p -> astype_uint16 p = p.
Proof.
  intros Hp. unfold astype_uint16.
  rewrite <- (map_id p) at 2. apply map_ext_in. intros row Hrow.
  rewrite <- (map_id row) at 2. apply map_ext_in. intros v Hv.
  unfold wrap16. apply Z.mod_small. specialize (Hp row v Hrow Hv). lia.
Qed.

Lemma perform_projection_one_slice self dy dx p :
  supported self ->
  has_shape dy dx p ->
  is_uint16 p ->
  perform_projection self dy dx [p] = Ok p.
Proof.
  intros Hrule Hshape Hp. unfold perform_projection.
  destruct Hrule as [-> | ->]; simpl; f_equal; apply reduce_axis0_single;
    try exact Hshape; intros row v Hrow Hv.
  - unfold mean_uint16, sum_uint16. simpl. unfold wrap16.
    rewrite Z.div_1_r. apply Z.mod_small. specialize (Hp row v Hrow Hv). lia.
  - reflexivity.
Qed.

(** A stack of one slice of 16-bit intensities is projected to that slice,
    under both rules. *)
Theorem single_slice_projection self dy dx p :
  supported self ->
  has_shape dy dx p ->
  is_uint16 p ->
  perform_projection self dy dx [p] = Ok p.
Proof. exact (perform_projection_one_slice self dy dx p). Qed.

Lemma single_slice_projection_witness :
  supported (init ["WL508"] "mean" 0) /\
  has_shape 2 2 [[0; 9]; [9; 65535]] /\
  is_uint16 [[0; 9]; [9; 65535]] /\
  perform_projection (init ["WL508"] "mean" 0) 2 2 [[[0; 9]; [9; 65535]]]
    = Ok [[0; 9]; [9; 65535]].
Proof.
  assert (H1 : supported (init ["WL508"] "mean" 0)) by (left; reflexivity).
  assert (H2 : has_shape 2 2 [[0; 9]; [9; 65535]]).
  { split; [reflexivity |]. intros row [<- | [<- | []]]; reflexivity. }
  assert (H3 : is_uint16 [[0; 9]; [9; 65535]]).
  { intros row v [<- | [<- | []]] [<- | [<- | []]]; lia. }
  split; [exact H1 | split; [exact H2 | split; [exact H3 |]]].
  exact (single_slice_projection (init ["WL508"] "mean" 0) 2 2 [[0; 9]; [9; 65535]]
           H1 H2 H3).
Defined.

(** * Further properties of the file processing *)

Lemma skipn_nth {A : Type} (v : list A) (d : A) :
  forall s, (s < List.length v)%nat -> skipn s v = nth s v d :: skipn (S s) v.
Proof.
  induction v as [| a v' IH]; intros s Hs; [simpl in Hs; lia |].
  destruct s as [| s']; [reflexivity |].
  simpl in Hs. change (skipn (S s') (a :: v')) with (skipn s' v').
  change (nth (S s') (a :: v') d) with (nth s' v' d).
  change (skipn (S (S s')) (a :: v')) with (skipn (S s') v').
  apply IH. lia.
Qed.

(** [take] on a range inside the array is the slice of the array. *)
Lemma take_py_range_substack {A : Type} (v : list A) (d : A) :
  forall n start stop,
    Z.to_nat (stop - start) = n ->
    0 <= start -> stop <= Z.of_nat (List.length v) ->
    take v (py_range start stop) = Ok (substack v start stop).
Proof.
  induction n as [| k IH]; intros start stop Hn H0 Hstop.
  - unfold py_range, substack. rewrite Hn. reflexivity.
  - rewrite py_range_cons by lia. cbn [take].
    replace start with (Z.of_nat (Z.to_nat start)) at 1 by lia.
    rewrite (take1_of_nat v (Z.to_nat start) d) by lia. cbn [bind].
    rewrite (IH (start + 1) stop) by lia. cbn [bind].
    unfold substack. rewrite Hn.
    replace (Z.to_nat (stop - (start + 1))) with k by lia.
    replace (Z.to_nat (start + 1)) with (S (Z.to_nat start)) by lia.
    rewrite (skipn_nth v d (Z.to_nat start)) by lia. reflexivity.
Qed.

Section Stack.

Variable score : Type.
Variable leb : score -> score -> bool.
Variable std : plane -> score.

(** On a well-shaped image the body of the loop is the projection of the
    selected slices followed by the update of the locals. *)
Lemma timepoint_body_projects self f st t :
  shape_ok f ->
  0 <= z_range self ->
  (t < nth 0 (img_shape f) 0)%nat ->
  timepoint_body leb std self f st t =
    (img_proj <- projected leb std self f t ;;
     _ <- cast_same_kind_uint16 (projection_dtype self (img_dtype f)) img_proj ;;
     Ok (after_timepoint leb std self f st t img_proj)).
Proof.
  intros (Hdim & Hframes & Hz & Hvol) Hh Ht.
  unfold timepoint_body, projected, after_timepoint, range_at.
  rewrite (take1_of_nat (img_frames f) t []) by lia.
  set (img_tp := nth t (img_frames f) []).
  assert (Hlen : List.length img_tp = nth 1 (img_shape f) 0%nat).
  { apply Hvol. apply nth_In. lia. }
  destruct (get_focused_z_slice_ok score leb std img_tp) as (Hfocus & Hbest); [lia |].
  cbn [bind]. rewrite Hfocus. cbn [bind].
  pose proof (range_n_slices self (Z.of_nat (best_z_of leb std img_tp))
                (Z.of_nat (nth 1 (img_shape f) 0%nat))) as Hn.
  destruct (calculate_projection_range self (Z.of_nat (best_z_of leb std img_tp))
              (Z.of_nat (nth 1 (img_shape f) 0%nat))) as [[start stop] n_slices] eqn:Hr.
  simpl in Hn. subst n_slices.
  assert (Hbz : 0 <= Z.of_nat (best_z_of leb std img_tp)
                 < Z.of_nat (nth 1 (img_shape f) 0%nat)) by lia.
  destruct (range_bounds _ _ _ _ _ _ Hbz Hh Hr) as (H0 & Hlt & Hstop).
  rewrite range_first_py, range_last_py by exact Hlt. cbn [bind].
  rewrite (take_py_range_substack img_tp [] (Z.to_nat (stop - start)) start stop)
    by lia.
  cbn [bind fst snd]. replace (stop - 1 + 1) with stop by lia.
  destruct (perform_projection self _ _ (substack img_tp start stop))
    as [img_proj | e]; cbn [bind]; [| reflexivity].
  unfold cast_same_kind_uint16.
  destruct (can_cast_same_kind_uint16 _); reflexivity.
Qed.

Lemma substack_nonempty {A : Type} (v : list A) (start stop : Z) :
  0 <= start -> start < stop -> stop <= Z.of_nat (List.length v) ->
  substack v start stop <> [].
Proof.
  intros H0 Hlt Hstop Hnil.
  apply (f_equal (@List.length A)) in Hnil. unfold substack in Hnil.
  rewrite length_firstn, length_skipn in Hnil. simpl in Hnil. lia.
Qed.

Lemma projected_ok self f t :
  shape_ok f -> 0 <= z_range self -> supported self ->
  (t < nth 0 (img_shape f) 0)%nat ->
  exists img_proj, projected leb std self f t = Ok img_proj.
Proof.
  intros (Hdim & Hframes & Hz & Hvol) Hh Hrule Ht.
  unfold projected, range_at.
  set (img_tp := nth t (img_frames f) []).
  assert (Hlen : List.length img_tp = nth 1 (img_shape f) 0%nat).
  { apply Hvol. apply nth_In. lia. }
  destruct (get_focused_z_slice_ok score leb std img_tp) as (_ & Hbest); [lia |].
  destruct (calculate_projection_range self (Z.of_nat (best_z_of leb std img_tp))
              (Z.of_nat (nth 1 (img_shape f) 0%nat))) as [[start stop] n_slices] eqn:Hr.
  assert (Hbz : 0 <= Z.of_nat (best_z_of leb std img_tp)
                 < Z.of_nat (nth 1 (img_shape f) 0%nat)) by lia.
  destruct (range_bounds _ _ _ _ _ _ Hbz Hh Hr) as (H0 & Hlt & Hstop).
  cbn [fst snd]. apply perform_projection_supported; [exact Hrule |].
  apply substack_nonempty; lia.
Qed.

(** The loop appends to the output stack the stored plane of every
    timepoint, in the order of the timepoints. *)
Lemma for_each_planes self f :
  shape_ok f -> 0 <= z_range self -> supported self -> castable self f ->
  forall ts st,
    (forall t, In t ts -> (t < nth 0 (img_shape f) 0)%nat) ->
    exists st',
      for_each (timepoint_body leb std self f) ts st = Ok st' /\
      img_proj_tp st' = (img_proj_tp st ++ map (saved_plane leb std self f) ts)%list.
Proof.
  intros Hshape Hh Hrule Hcast. induction ts as [| t ts' IH]; intros st Hts.
  - exists st. simpl. rewrite app_nil_r. split; reflexivity.
  - assert (Ht : (t < nth 0 (img_shape f) 0)%nat) by (apply Hts; left; reflexivity).
    destruct (projected_ok self f t Hshape Hh Hrule Ht) as (img_proj & Hproj).
    destruct (IH (after_timepoint leb std self f st t img_proj)) as (st' & Hloop & Hplanes).
    { intros t' Ht'. apply Hts. right. exact Ht'. }
    exists st'. cbn [for_each].
    rewrite (timepoint_body_projects self f st t Hshape Hh Ht), Hproj. cbn [bind].
    unfold cast_same_kind_uint16. unfold castable in Hcast. rewrite Hcast. cbn [bind].
    split; [exact Hloop |].
    rewrite Hplanes. cbn [after_timepoint img_proj_tp map].
    unfold saved_plane at 2. rewrite Hproj. rewrite <- app_assoc. reflexivity.
Qed.

(** What the two projector objects of one call have in common decides the
    projection. *)
Lemma projected_same_settings self self' f t :
  projection_type self' = projection_type self ->
  z_range self' = z_range self ->
  projected leb std self' f t = projected leb std self f t.
Proof.
  intros Hrule Hh.
  unfold projected, perform_projection, range_at, calculate_projection_range.
  rewrite Hrule, Hh. reflexivity.
Qed.

(** The stack saved for a well-shaped image. *)
Lemma saved_stack_planes w f :
  shape_ok f ->
  0 <= z_range (projector w) ->
  supported (projector w) ->
  castable (projector w) f ->
  dict_get (saved (process_tiff_file leb std w f)) (output_name (projector w) f)
    = Some (map (saved_plane leb std (projector w) f)
              (seq 0 (nth 0 (img_shape f) 0%nat))).
Proof.
  intros Hshape Hh Hrule Hcast. unfold process_tiff_file.
  pose proof Hshape as (Hdim & _). rewrite Hdim. simpl Nat.leb. cbv iota.
  set (w1 := print (count_processed w) ("Processing TIFF: " ++ file_name f)).
  set (st0 := {| img_proj_tp := _ |}).
  destruct (for_each_planes (projector w1) f Hshape Hh Hrule Hcast
              (seq 0 (nth 0 (img_shape f) 0%nat)) st0)
    as (st' & Hloop & Hplanes).
  { intros t Ht. apply in_seq in Ht. lia. }
  rewrite Hloop. cbn [store_report imsave saved].
  change (file_stem f ++ "_" ++ projection_type (projector w1) ++ "proj.tif")
    with (output_name (projector w) f).
  rewrite dict_get_set. f_equal. rewrite Hplanes. cbn [img_proj_tp st0 app tl].
  apply map_ext. intros t. unfold saved_plane.
  rewrite (projected_same_settings (projector w) (projector w1)) by reflexivity.
  reflexivity.
Qed.

(** For a well-shaped image, a half-width z_range >= 0, a supported rule
    and projected planes that can be cast to uint16 (the mean rule, or an
    image of an unsigned dtype), the stack saved under
    "<stem>_<rule>proj.tif" has one plane per timepoint, in time order: the
    projection, cast to uint16, of the slices start .. stop - 1 of the
    volume of that timepoint. *)
Theorem saved_stack w f :
  shape_ok f ->
  0 <= z_range (projector w) ->
  supported (projector w) ->
  castable (projector w) f ->
  exists out,
    dict_get (saved (process_tiff_file leb std w f)) (output_name (projector w) f)
      = Some out /\
    List.length out = nth 0 (img_shape f) 0%nat /\
    forall t, (t < nth 0 (img_shape f) 0)%nat ->
      exists img_proj,
        projected leb std (projector w) f t = Ok img_proj /\
        nth_error out t = Some (astype_uint16 img_proj).
Proof.
  intros Hshape Hh Hrule Hcast.
  eexists. split; [apply saved_stack_planes; assumption |].
  split; [rewrite length_map, length_seq; reflexivity |].
  intros t Ht.
  destruct (projected_ok (projector w) f t Hshape Hh Hrule Ht) as (img_proj & Hproj).
  exists img_proj. split; [exact Hproj |].
  rewrite nth_error_map_seq by exact Ht. unfold saved_plane. rewrite Hproj. reflexivity.
Qed.

End Stack.

(** ** The outcomes of one file *)

Lemma dict_get_set_other {V : Type} (d : list (string * V)) k k' v :
  k' <> k -> dict_get (dict_set d k v) k' = dict_get d k'.
Proof.
  intros Hk. apply String.eqb_neq in Hk.
  induction d as [| [k0 v0] d' IH]; simpl.
  - rewrite String.eqb_sym, Hk. reflexivity.
  - destruct (String.eqb k0 k) eqn:Hk0; simpl.
    + apply String.eqb_eq in Hk0. subst k0.
      rewrite String.eqb_sym, Hk. reflexivity.
    + destruct (String.eqb k0 k'); [reflexivity | exact IH].
Qed.

Lemma dict_set_twice {V : Type} (d : list (string * V)) k v v' :
  dict_set (dict_set d k v) k v' = dict_set d k v'.
Proof.
  induction d as [| [k0 v0] d' IH]; simpl.
  - rewrite String.eqb_refl. reflexivity.
  - destruct (String.eqb k0 k) eqn:Hk0; simpl.
    + rewrite String.eqb_refl. reflexivity.
    + rewrite Hk0, IH. reflexivity.
Qed.

Section Outcomes.

Variable score : Type.
Variable leb : score -> score -> bool.
Variable std : plane -> score.

Lemma timepoint_loop_same_settings self self' f :
  same_settings self self' ->
  timepoint_loop leb std self' f = timepoint_loop leb std self f.
Proof.
  intros (_ & Hrule & Hh).
  unfold timepoint_loop, timepoint_body, perform_projection, projection_dtype,
    calculate_projection_range.
  rewrite Hrule, Hh. reflexivity.
Qed.

(** [process_tiff_file] in terms of the outcome of its loop. *)
Lemma process_tiff_file_skips w f :
  (List.length (img_shape f) <= 3)%nat ->
  process_tiff_file leb std w f =
    print w ("Skipping " ++ file_name f ++ ": insufficient dimensions").
Proof.
  intros Hdim. unfold process_tiff_file.
  destruct (Nat.leb_spec (List.length (img_shape f)) 3); [reflexivity | lia].
Qed.

Lemma process_tiff_file_done w f st :
  (3 < List.length (img_shape f))%nat ->
  timepoint_loop leb std (projector w) f = Ok st ->
  process_tiff_file leb std w f =
    store_report
      (imsave (print (count_processed w) ("Processing TIFF: " ++ file_name f))
         (output_name (projector w) f) (tl (img_proj_tp st)))
      (file_stem f) (report_of st).
Proof.
  intros Hdim Hloop. unfold process_tiff_file.
  destruct (Nat.leb_spec (List.length (img_shape f)) 3); [lia |].
  set (w1 := print (count_processed w) ("Processing TIFF: " ++ file_name f)).
  rewrite <- (timepoint_loop_same_settings (projector w) (projector w1) f) in Hloop
    by (repeat split; reflexivity).
  unfold timepoint_loop in Hloop. rewrite Hloop. reflexivity.
Qed.

Lemma process_tiff_file_failed w f e :
  (3 < List.length (img_shape f))%nat ->
  timepoint_loop leb std (projector w) f = Raise e ->
  process_tiff_file leb std w f =
    print (print (count_processed w) ("Processing TIFF: " ++ file_name f))
      ("Error processing " ++ file_name f ++ ": " ++ exn_str e).
Proof.
  intros Hdim Hloop. unfold process_tiff_file.
  destruct (Nat.leb_spec (List.length (img_shape f)) 3); [lia |].
  set (w1 := print (count_processed w) ("Processing TIFF: " ++ file_name f)).
  rewrite <- (timepoint_loop_same_settings (projector w) (projector w1) f) in Hloop
    by (repeat split; reflexivity).
  unfold timepoint_loop in Hloop. rewrite Hloop. reflexivity.
Qed.

Ltac file_outcomes w f :=
  let Hdim := fresh "Hdim" in
  let Hloop := fresh "Hloop" in
  destruct (Nat.leb_spec (List.length (img_shape f)) 3) as [Hdim | Hdim];
  [ rewrite (process_tiff_file_skips w f Hdim)
  | destruct (timepoint_loop leb std (projector w) f) as [?st | ?e] eqn:Hloop;
    [ rewrite (process_tiff_file_done w f _ Hdim Hloop)
    | rewrite (process_tiff_file_failed w f _ Hdim Hloop) ] ].

(** Whatever happens to a file, the rule, the half-width and the channels of
    the projector stay as they were. *)
Lemma process_tiff_file_settings w f :
  same_settings (projector w) (projector (process_tiff_file leb std w f)).
Proof. file_outcomes w f; repeat split; reflexivity. Qed.

(** Processing a file touches one report sheet and one output file: the
    sheets of the other stems and the files of the other names are what
    they were, whether the file is skipped, fails or is projected. *)
Theorem other_entries_untouched w f :
  (forall stem, stem <> file_stem f ->
     dict_get (report_data (projector (process_tiff_file leb std w f))) stem =
     dict_get (report_data (projector w)) stem) /\
  (forall path, path <> output_name (projector w) f ->
     dict_get (saved (process_tiff_file leb std w f)) path = dict_get (saved w) path).
Proof.
  split; intros k Hk; file_outcomes w f; try reflexivity;
    cbn [store_report imsave print count_processed projector report_data saved];
    apply dict_get_set_other; exact Hk.
Qed.

(** A file with at least four axes is counted as processed even when its
    processing fails; a file with fewer axes only gets its line printed. *)
Theorem processed_count_counts_attempts w f :
  ((3 < List.length (img_shape f))%nat ->
   processed_count (projector (process_tiff_file leb std w f)) =
     S (processed_count (projector w))) /\
  ((List.length (img_shape f) <= 3)%nat ->
   projector (process_tiff_file leb std w f) = projector w /\
   saved (process_tiff_file leb std w f) = saved w /\
   stdout (process_tiff_file leb std w f) =
     (stdout w ++
      [("Skipping " ++ file_name f ++ ": insufficient dimensions")%string])%list).
Proof.
  split; intros H.
  - file_outcomes w f; [lia | reflexivity | reflexivity].
  - rewrite (process_tiff_file_skips w f H). repeat split; reflexivity.
Qed.

(** Processing the same file a second time leaves the reports and the saved
    files as the first time left them: the sheet and the output file are
    written again with the same content, not added a second time. *)
Theorem process_twice w f :
  report_data (projector
    (process_tiff_file leb std (process_tiff_file leb std w f) f)) =
    report_data (projector (process_tiff_file leb std w f)) /\
  saved (process_tiff_file leb std (process_tiff_file leb std w f) f) =
    saved (process_tiff_file leb std w f).
Proof.
  set (w1 := process_tiff_file leb std w f).
  pose proof (process_tiff_file_settings w f) as Hsame. fold w1 in Hsame.
  pose proof (timepoint_loop_same_settings (projector w) (projector w1) f Hsame) as Hloop1.
  assert (Hname : output_name (projector w1) f = output_name (projector w) f).
  { unfold output_name. destruct Hsame as (_ & -> & _). reflexivity. }
  destruct (Nat.leb_spec (List.length (img_shape f)) 3) as [Hdim | Hdim].
  - rewrite (process_tiff_file_skips w1 f Hdim). split; reflexivity.
  - destruct (timepoint_loop leb std (projector w) f) as [st | e] eqn:Hloop.
    + rewrite (process_tiff_file_done w1 f st Hdim) by (rewrite Hloop1; reflexivity).
      rewrite Hname. subst w1. rewrite (process_tiff_file_done w f st Hdim Hloop).
      cbn [store_report imsave print count_processed projector report_data saved].
      rewrite !dict_set_twice. split; reflexivity.
    + rewrite (process_tiff_file_failed w1 f e Hdim) by (rewrite Hloop1; reflexivity).
      split; reflexivity.
Qed.

End Outcomes.

(** ** Edge settings *)

Section Edges.

Variable score : Type.
Variable leb : score -> score -> bool.
Variable std : plane -> score.

Lemma seq_from_0 n : (1 <= n)%nat -> seq 0 n = 0%nat :: seq 1 (n - 1).
Proof. destruct n; [lia |]. intros _. simpl. rewrite Nat.sub_0_r. reflexivity. Qed.

(** With z_range = 0 the plane stored for a timepoint is its best-focused
    slice. *)
Lemma saved_plane_zero_z_range self f t :
  shape_ok f -> planes_ok f ->
  z_range self = 0 -> supported self ->
  (t < nth 0 (img_shape f) 0)%nat ->
  saved_plane leb std self f t =
    nth (best_z_of leb std (nth t (img_frames f) [])) (nth t (img_frames f) []) [].
Proof.
  intros (Hdim & Hframes & Hz & Hvol) (_ & Hplanes) Hh Hrule Ht.
  unfold saved_plane, projected, range_at.
  set (img_tp := nth t (img_frames f) []).
  assert (Hin : In img_tp (img_frames f)) by (apply nth_In; lia).
  assert (Hlen : List.length img_tp = nth 1 (img_shape f) 0%nat) by (apply Hvol; exact Hin).
  destruct (get_focused_z_slice_ok score leb std img_tp) as (_ & Hbest); [lia |].
  set (b := best_z_of leb std img_tp) in *.
  rewrite range_symmetric by (unfold start_underflow, stop_overflow; lia).
  cbn [fst snd]. rewrite Hh. unfold substack.
  replace (Z.to_nat (Z.of_nat b + 0 + 1 - (Z.of_nat b - 0))) with 1%nat by lia.
  replace (Z.to_nat (Z.of_nat b - 0)) with b by lia.
  rewrite (skipn_nth img_tp [] b) by lia. cbn [firstn].
  assert (Hp : In (nth b img_tp []) img_tp) by (apply nth_In; lia).
  destruct (Hplanes img_tp _ Hin Hp) as (Hshape & Hu16).
  rewrite (perform_projection_one_slice self _ _ _ Hrule Hshape Hu16).
  apply astype_uint16_id. exact Hu16.
Qed.

(** With z_range = 0 the saved stack is made of the best-focused slice of
    every timepoint, unchanged, under both rules. *)
Theorem zero_z_range_saves_best_slices w f :
  shape_ok f -> planes_ok f ->
  z_range (projector w) = 0 ->
  supported (projector w) ->
  dict_get (saved (process_tiff_file leb std w f)) (output_name (projector w) f)
    = Some (map (fun t => nth (best_z_of leb std (nth t (img_frames f) []))
                            (nth t (img_frames f) []) [])
              (seq 0 (nth 0 (img_shape f) 0%nat))).
Proof.
  intros Hshape Hplanes Hh Hrule.
  assert (Hcast : castable (projector w) f).
  { unfold castable, projection_dtype. destruct Hplanes as (-> & _).
    destruct (String.eqb _ _); reflexivity. }
  rewrite (saved_stack_planes score leb std w f Hshape) by (assumption || lia).
  f_equal. apply map_ext_in. intros t Ht. apply in_seq in Ht.
  apply saved_plane_zero_z_range; (assumption || lia).
Qed.

(** With a negative z_range no file with a timepoint can be projected: the
    range of the first timepoint is empty, the file fails on it with an
    index error, and neither a report nor an output file is written. *)
Theorem negative_z_range_fails w f :
  shape_ok f ->
  (1 <= nth 0 (img_shape f) 0)%nat ->
  z_range (projector w) < 0 ->
  process_tiff_file leb std w f =
    print (print (count_processed w) ("Processing TIFF: " ++ file_name f))
      ("Error processing " ++ file_name f ++ ": range object index out of range").
Proof.
  intros Hshape HT Hh.
  pose proof Hshape as (Hdim & Hframes & Hz & Hvol).
  apply (process_tiff_file_failed score leb std w f
           (IndexError "range object index out of range")); [lia |].
  unfold timepoint_loop. rewrite (seq_from_0 _ HT). cbn [for_each].
  unfold timepoint_body.
  rewrite (take1_of_nat (img_frames f) 0 []) by lia.
  set (img_tp := nth 0 (img_frames f) []).
  assert (Hlen : List.length img_tp = nth 1 (img_shape f) 0%nat).
  { apply Hvol. apply nth_In. lia. }
  destruct (get_focused_z_slice_ok score leb std img_tp) as (Hfocus & Hbest); [lia |].
  cbn [bind]. rewrite Hfocus. cbn [bind].
  destruct (range_negative_z_range (projector w) (Z.of_nat (best_z_of leb std img_tp))
              (Z.of_nat (nth 1 (img_shape f) 0%nat))) as (Hr & Hempty); [lia | exact Hh |].
  rewrite Hr, Hempty. reflexivity.
Qed.

(** An image whose volumes have no plane fails on its first timepoint, at
    the selection of the best slice; nothing is written for it. *)
Theorem empty_volumes_fail w f :
  (3 < List.length (img_shape f))%nat ->
  (1 <= nth 0 (img_shape f) 0)%nat ->
  List.length (img_frames f) = nth 0 (img_shape f) 0%nat ->
  (forall v, In v (img_frames f) -> v = []) ->
  process_tiff_file leb std w f =
    print (print (count_processed w) ("Processing TIFF: " ++ file_name f))
      ("Error processing " ++ file_name f ++
         ": attempt to get argmax of an empty sequence").
Proof.
  intros Hdim HT Hframes Hempty.
  apply (process_tiff_file_failed score leb std w f
           (ValueError "attempt to get argmax of an empty sequence")); [exact Hdim |].
  unfold timepoint_loop. rewrite (seq_from_0 _ HT). cbn [for_each].
  unfold timepoint_body.
  rewrite (take1_of_nat (img_frames f) 0 []) by lia.
  rewrite (Hempty (nth 0 (img_frames f) [])) by (apply nth_In; lia).
  reflexivity.
Qed.

End Edges.

(** ** The report sheets *)

Section Sheets.

Variable score : Type.
Variable leb : score -> score -> bool.
Variable std : plane -> score.

(** A body that ends normally has appended one item to each list. *)
Lemma timepoint_body_appends self f st t st' :
  timepoint_body leb std self f st t = Ok st' ->
  List.length (timepoints st') = S (List.length (timepoints st)) /\
  List.length (n_proj_z st') = S (List.length (n_proj_z st)) /\
  List.length (proj_types st') = S (List.length (proj_types st)) /\
  List.length (start_z st') = S (List.length (start_z st)) /\
  List.length (stop_z st') = S (List.length (stop_z st)).
Proof.
  unfold timepoint_body. intros H.
  repeat match type of H with
  | bind ?r _ = Ok _ => destruct r; cbn [bind] in H; [| discriminate H]
  | match ?p with pair _ _ => _ end = Ok _ => destruct p
  end.
  injection H as <-. cbn [timepoints n_proj_z proj_types start_z stop_z].
  rewrite !length_app. simpl. repeat split; lia.
Qed.

Lemma for_each_appends self f :
  forall ts st st',
    for_each (timepoint_body leb std self f) ts st = Ok st' ->
    List.length (timepoints st') = (List.length (timepoints st) + List.length ts)%nat /\
    List.length (n_proj_z st') = (List.length (n_proj_z st) + List.length ts)%nat /\
    List.length (proj_types st') = (List.length (proj_types st) + List.length ts)%nat /\
    List.length (start_z st') = (List.length (start_z st) + List.length ts)%nat /\
    List.length (stop_z st') = (List.length (stop_z st) + List.length ts)%nat.
Proof.
  induction ts as [| t ts' IH]; intros st st' H.
  - injection H as <-. simpl. repeat split; lia.
  - cbn [for_each] in H.
    destruct (timepoint_body leb std self f st t) as [st1 | e] eqn:Hbody;
      cbn [bind] in H; [| discriminate H].
    apply timepoint_body_appends in Hbody. apply IH in H. simpl. lia.
Qed.

(** Every sheet that [process_tiff_file] stores has five columns of the
    same length, so the sheets stay aligned if they were. *)
Theorem report_columns_aligned w f :
  (forall stem r, dict_get (report_data (projector w)) stem = Some r -> aligned r) ->
  forall stem r,
    dict_get (report_data (projector (process_tiff_file leb std w f))) stem = Some r ->
    aligned r.
Proof.
  intros Hold stem r.
  destruct (Nat.leb_spec (List.length (img_shape f)) 3) as [Hdim | Hdim].
  - rewrite (process_tiff_file_skips score leb std w f Hdim). apply Hold.
  - destruct (timepoint_loop leb std (projector w) f) as [st | e] eqn:Hloop.
    + rewrite (process_tiff_file_done score leb std w f st Hdim Hloop).
      cbn [store_report imsave print count_processed projector report_data].
      destruct (string_dec stem (file_stem f)) as [-> | Hne].
      * rewrite dict_get_set. intros H. injection H as <-.
        apply for_each_appends in Hloop. simpl in Hloop. unfold aligned, report_of.
        cbn [Timepoint Numb_projected_z Type_of_proj Start_z Stop_z]. lia.
      * rewrite dict_get_set_other by exact Hne. apply Hold.
    + rewrite (process_tiff_file_failed score leb std w f e Hdim Hloop). apply Hold.
Qed.

End Sheets.

(** * The loop over the folder *)

(** ** The order of the names *)

Lemma ascii_compare_trans_le a b c :
  Ascii.compare a b <> Gt -> Ascii.compare b c <> Gt -> Ascii.compare a c <> Gt.
Proof.
  unfold Ascii.compare. intros Hab Hbc Hac.
  apply N.compare_gt_iff in Hac.
  destruct (N.compare_spec (Ascii.N_of_ascii a) (Ascii.N_of_ascii b));
    destruct (N.compare_spec (Ascii.N_of_ascii b) (Ascii.N_of_ascii c));
    try congruence; lia.
Qed.

Lemma string_compare_trans_le s1 :
  forall s2 s3,
    String.compare s1 s2 <> Gt -> String.compare s2 s3 <> Gt ->
    String.compare s1 s3 <> Gt.
Proof.
  induction s1 as [| a s1' IH]; intros [| b s2'] [| c s3']; simpl;
    try congruence.
  unfold Ascii.compare. intros Hab Hbc.
  destruct (N.compare_spec (Ascii.N_of_ascii a) (Ascii.N_of_ascii b));
    try congruence;
    destruct (N.compare_spec (Ascii.N_of_ascii b) (Ascii.N_of_ascii c));
    try congruence;
    destruct (N.compare_spec (Ascii.N_of_ascii a) (Ascii.N_of_ascii c));
    try congruence; try (exfalso; lia).
  apply (IH s2'); assumption.
Qed.

Lemma string_leb_trans s1 s2 s3 :
  String.leb s1 s2 = true -> String.leb s2 s3 = true -> String.leb s1 s3 = true.
Proof.
  unfold String.leb. intros H12 H23.
  pose proof (string_compare_trans_le s1 s2 s3) as H.
  destruct (String.compare s1 s2); try discriminate;
    destruct (String.compare s2 s3); try discriminate;
    destruct (String.compare s1 s3); try reflexivity;
    exfalso; apply H; congruence.
Qed.

Definition name_le (a b : dir_entry) : Prop :=
  String.leb (file_name (entry_file a)) (file_name (entry_file b)) = true.

Lemma insert_by_name_perm e l : Permutation (insert_by_name e l) (e :: l).
Proof.
  induction l as [| x l' IH]; simpl; [reflexivity |].
  destruct (String.leb _ _); [reflexivity |].
  rewrite IH. apply perm_swap.
Qed.

Lemma sorted_perm l : Permutation (sorted l) l.
Proof.
  induction l as [| e l' IH]; simpl; [reflexivity |].
  rewrite insert_by_name_perm. apply perm_skip. exact IH.
Qed.

Lemma insert_by_name_sorted e l :
  StronglySorted name_le l -> StronglySorted name_le (insert_by_name e l).
Proof.
  induction l as [| x l' IH]; intros Hl; simpl.
  - constructor; constructor.
  - inversion Hl as [| ? ? Hl' Hx]; subst.
    destruct (String.leb (file_name (entry_file e)) (file_name (entry_file x))) eqn:Hex.
    + constructor; [exact Hl |]. constructor; [exact Hex |].
      eapply Forall_impl; [| exact Hx]. intros y Hy. unfold name_le in *.
      eapply string_leb_trans; eassumption.
    + constructor; [apply IH; exact Hl' |].
      apply (Permutation_Forall (Permutation_sym (insert_by_name_perm e l'))).
      constructor; [| exact Hx]. unfold name_le.
      destruct (String.leb_total (file_name (entry_file x)) (file_name (entry_file e)));
        congruence.
Qed.

Lemma sorted_sorted l : StronglySorted name_le (sorted l).
Proof.
  induction l as [| e l' IH]; simpl; [constructor |].
  apply insert_by_name_sorted. exact IH.
Qed.

Lemma same_name_same_entry l :
  NoDup (map (fun e => file_name (entry_file e)) l) ->
  forall a b, In a l -> In b l ->
    file_name (entry_file a) = file_name (entry_file b) -> a = b.
Proof.
  induction l as [| x l' IH]; intros Hnd a b Ha Hb Hname; [destruct Ha |].
  inversion Hnd as [| ? ? Hx Hnd']; subst.
  destruct Ha as [-> | Ha], Hb as [-> | Hb].
  - reflexivity.
  - exfalso. apply Hx. rewrite Hname.
    apply (in_map (fun e => file_name (entry_file e))). exact Hb.
  - exfalso. apply Hx. rewrite <- Hname.
    apply (in_map (fun e => file_name (entry_file e))). exact Ha.
  - apply IH; assumption.
Qed.

(** Two sorted listings of the same entries, with one entry per name, are
    the same list. *)
Lemma sorted_unique l1 :
  forall l2,
    Permutation l1 l2 ->
    NoDup (map (fun e => file_name (entry_file e)) l1) ->
    StronglySorted name_le l1 -> StronglySorted name_le l2 ->
    l1 = l2.
Proof.
  induction l1 as [| a l1' IH]; intros l2 Hperm Hnd Hs1 Hs2.
  - apply Permutation_nil in Hperm. congruence.
  - destruct l2 as [| b l2'].
    { apply Permutation_sym, Permutation_nil in Hperm. discriminate. }
    inversion Hs1 as [| ? ? Hs1' Ha]; subst.
    inversion Hs2 as [| ? ? Hs2' Hb]; subst.
    assert (Hab : a = b).
    { assert (Hina : In a (b :: l2')) by (apply (Permutation_in _ Hperm); left; reflexivity).
      assert (Hinb : In b (a :: l1'))
        by (apply (Permutation_in _ (Permutation_sym Hperm)); left; reflexivity).
      destruct Hina as [-> | Hina]; [reflexivity |].
      destruct Hinb as [-> | Hinb]; [reflexivity |].
      apply (same_name_same_entry (a :: l1') Hnd);
        [left; reflexivity | right; exact Hinb |].
      apply String.leb_antisym.
      - rewrite Forall_forall in Ha. apply Ha. exact Hinb.
      - rewrite Forall_forall in Hb. apply Hb. exact Hina. }
    subst b. f_equal. apply IH.
    + apply Permutation_cons_inv with a. exact Hperm.
    + inversion Hnd. assumption.
    + exact Hs1'.
    + exact Hs2'.
Qed.

Lemma sorted_of_permutation l1 l2 :
  Permutation l1 l2 ->
  NoDup (map (fun e => file_name (entry_file e)) l1) ->
  sorted l1 = sorted l2.
Proof.
  intros Hperm Hnd. apply sorted_unique.
  - rewrite sorted_perm, Hperm. symmetry. apply sorted_perm.
  - apply (Permutation_NoDup (l := map (fun e => file_name (entry_file e)) l1));
      [| exact Hnd].
    apply Permutation_map. symmetry. apply sorted_perm.
  - apply sorted_sorted.
  - apply sorted_sorted.
Qed.

Lemma insert_by_name_first e l :
  Forall (name_le e) l -> insert_by_name e l = e :: l.
Proof.
  destruct l as [| x l']; [reflexivity |].
  intros H. inversion H as [| ? ? Hx _]; subst. simpl.
  unfold name_le in Hx. rewrite Hx. reflexivity.
Qed.

(** Keeping some of the entries commutes with the insertion in a sorted
    list, and so with the sort. *)
Lemma filter_insert_by_name (p : dir_entry -> bool) e l :
  StronglySorted name_le l ->
  filter p (insert_by_name e l) =
    if p e then insert_by_name e (filter p l) else filter p l.
Proof.
  induction l as [| x l' IH]; intros Hl.
  - simpl. destruct (p e); reflexivity.
  - inversion Hl as [| ? ? Hl' Hx]; subst. cbn [insert_by_name].
    destruct (String.leb (file_name (entry_file e)) (file_name (entry_file x))) eqn:Hex.
    + change (filter p (e :: x :: l'))
        with (if p e then e :: filter p (x :: l') else filter p (x :: l')).
      destruct (p e); [| reflexivity].
      symmetry. apply insert_by_name_first.
      assert (Hall : Forall (name_le e) (x :: l')).
      { constructor; [exact Hex |].
        eapply Forall_impl; [| exact Hx]. intros y Hy. unfold name_le in *.
        eapply string_leb_trans; eassumption. }
      rewrite Forall_forall in *. intros y Hy. apply Hall.
      apply filter_In in Hy. tauto.
    + cbn [filter]. rewrite (IH Hl').
      destruct (p x), (p e); try reflexivity.
      cbn [insert_by_name]. rewrite Hex. reflexivity.
Qed.

Lemma filter_sorted (p : dir_entry -> bool) l :
  filter p (sorted l) = sorted (filter p l).
Proof.
  induction l as [| e l' IH]; [reflexivity |].
  cbn [sorted filter]. rewrite filter_insert_by_name by apply sorted_sorted.
  rewrite IH. destruct (p e); reflexivity.
Qed.

(** ** The selection of the files *)

Lemma prefix_app sub s :
  prefix sub s = true <-> exists post, s = (sub ++ post)%string.
Proof.
  revert s. induction sub as [| a sub' IH]; intros s; simpl.
  - destruct s; split; eauto.
  - destruct s as [| b s']; simpl.
    + split; [discriminate | intros (post & H); discriminate H].
    + destruct (Ascii.ascii_dec a b) as [-> | Hab].
      * rewrite IH. split; intros (post & H); exists post; congruence.
      * split; [discriminate | intros (post & H); congruence].
Qed.

(** [contains sub s] holds exactly when [sub] occurs in [s]. *)
Lemma contains_app sub s :
  contains sub s = true <-> exists pre post, s = (pre ++ sub ++ post)%string.
Proof.
  induction s as [| c s' IH].
  - cbn [contains]. destruct (prefix sub "") eqn:Hp.
    + apply prefix_app in Hp. destruct Hp as (post & Hp).
      split; [intros _; exists "", post; exact Hp | reflexivity].
    + split; [discriminate |]. intros (pre & post & H).
      destruct pre; simpl in H; [| discriminate H].
      assert (prefix sub "" = true) by (apply prefix_app; eauto). congruence.
  - cbn [contains]. destruct (prefix sub (String c s')) eqn:Hp.
    + apply prefix_app in Hp. destruct Hp as (post & Hp).
      split; [intros _; exists "", post; exact Hp | reflexivity].
    + rewrite IH. split.
      * intros (pre & post & ->). exists (String c pre), post. reflexivity.
      * intros (pre & post & H). destruct pre as [| c' pre']; simpl in H.
        -- assert (prefix sub (String c s') = true) by (apply prefix_app; eauto).
           congruence.
        -- injection H as _ ->. eauto.
Qed.

(** The two tests of the loop body hold exactly when the entry is a regular
    file, its suffix is '.tif' up to the case of the letters, and its name
    contains one of the channels. *)
Lemma selected_iff self e :
  selected self e = true <->
  is_file e = true /\
  lower (path_suffix e) = ".tif" /\
  exists channel pre post,
    In channel (channels self) /\
    file_name (entry_file e) = (pre ++ channel ++ post)%string.
Proof.
  unfold selected. destruct (is_file e); simpl.
  - rewrite andb_true_iff, String.eqb_eq, existsb_exists. split.
    + intros (Hs & channel & Hin & Hc). apply contains_app in Hc.
      destruct Hc as (pre & post & Hc). repeat split; eauto 6.
    + intros (_ & Hs & channel & pre & post & Hin & Hc). split; [exact Hs |].
      exists channel. split; [exact Hin |]. apply contains_app. eauto.
  - split; [discriminate | intros (H & _); discriminate H].
Qed.

Section Batch.

Variable score : Type.
Variable leb : score -> score -> bool.
Variable std : plane -> score.

Lemma selected_same_settings self self' e :
  same_settings self self' -> selected self' e = selected self e.
Proof. intros (Hc & _). unfold selected. rewrite Hc. reflexivity. Qed.

Lemma same_settings_trans a b c :
  same_settings a b -> same_settings b c -> same_settings a c.
Proof.
  intros (H1 & H2 & H3) (H4 & H5 & H6). repeat split; congruence.
Qed.

(** The files processed by the loop, in the order of the loop. *)
Definition process_all (w : world) (entries : list dir_entry) : world :=
  fold_left (fun w e => process_tiff_file leb std w (entry_file e)) entries w.

(** The selection is decided by the channels at the start of the loop: the
    loop processes the selected entries and only them. *)
Lemma run_files_selected entries :
  forall w,
    run_files leb std w entries =
      process_all w (filter (selected (projector w)) entries).
Proof.
  induction entries as [| e rest IH]; intros w; [reflexivity |].
  cbn [run_files filter]. destruct (selected (projector w) e) eqn:Hsel.
  - rewrite IH. unfold process_all. cbn [fold_left]. f_equal.
    apply filter_ext. intros e'. apply selected_same_settings.
    apply process_tiff_file_settings.
  - apply IH.
Qed.

(** The loop of [run] processes, in the order of their names, exactly the
    entries of the folder that are regular files, have the suffix '.tif' up
    to the case of the letters, and have one of the channels in their name:
    its result is [process_tiff_file] applied in turn to these entries. *)
Theorem run_loop_processes_selected w listing :
  run_loop leb std w listing =
    fold_left (fun w e => process_tiff_file leb std w (entry_file e))
      (filter (selected (projector w)) (sorted listing)) w /\
  StronglySorted name_le (filter (selected (projector w)) (sorted listing)) /\
  forall e,
    In e (filter (selected (projector w)) (sorted listing)) <->
    In e listing /\
    is_file e = true /\
    lower (path_suffix e) = ".tif" /\
    exists channel pre post,
      In channel (channels (projector w)) /\
      file_name (entry_file e) = (pre ++ channel ++ post)%string.
Proof.
  split; [| split].
  - unfold run_loop. apply run_files_selected.
  - rewrite filter_sorted. apply sorted_sorted.
  - intros e. rewrite filter_In, selected_iff. split.
    + intros (Hin & H). split; [| exact H].
      apply (Permutation_in _ (sorted_perm listing)). exact Hin.
    + intros (Hin & H). split; [| exact H].
      apply (Permutation_in _ (Permutation_sym (sorted_perm listing))). exact Hin.
Qed.

Lemma process_all_count entries :
  forall w,
    processed_count (projector (process_all w entries)) =
      (processed_count (projector w) +
       List.length
         (filter (fun e => (3 <? List.length (img_shape (entry_file e)))%nat) entries))%nat.
Proof.
  induction entries as [| e rest IH]; intros w; [simpl; lia |].
  unfold process_all in *. cbn [fold_left filter]. rewrite IH.
  destruct (Nat.ltb_spec 3 (List.length (img_shape (entry_file e)))) as [Hdim | Hdim].
  - destruct (timepoint_loop leb std (projector w) (entry_file e)) as [st | ex] eqn:Hloop.
    + rewrite (process_tiff_file_done score leb std w _ st Hdim Hloop). simpl. lia.
    + rewrite (process_tiff_file_failed score leb std w _ ex Hdim Hloop). simpl. lia.
  - rewrite (process_tiff_file_skips score leb std w _ Hdim). simpl. lia.
Qed.

Lemma filter_length_perm {A : Type} (p : A -> bool) l l' :
  Permutation l l' -> List.length (filter p l) = List.length (filter p l').
Proof.
  induction 1 as [| x l l' _ IH | x y l | l l' l'' _ IH1 _ IH2]; simpl.
  - reflexivity.
  - destruct (p x); simpl; congruence.
  - destruct (p x), (p y); reflexivity.
  - congruence.
Qed.

(** The loop over the folder gives the same result whatever the order in
    which the folder lists its entries, one entry per name. *)
Theorem run_loop_order_independent w l1 l2 :
  Permutation l1 l2 ->
  NoDup (map (fun e => file_name (entry_file e)) l1) ->
  run_loop leb std w l1 = run_loop leb std w l2.
Proof.
  intros Hperm Hnd. unfold run_loop.
  rewrite (sorted_of_permutation l1 l2 Hperm Hnd). reflexivity.
Qed.

Lemma filter_after_filter {A : Type} (p q : A -> bool) l :
  filter p (filter q l) = filter (fun x => q x && p x) l.
Proof.
  induction l as [| x l' IH]; [reflexivity |].
  simpl. destruct (q x); simpl; [destruct (p x) |]; rewrite IH; reflexivity.
Qed.

Lemma filter_none {A : Type} (p : A -> bool) l :
  (forall e, In e l -> p e = false) -> filter p l = [].
Proof.
  induction l as [| x l' IH]; intros H; [reflexivity |].
  simpl. rewrite H by (left; reflexivity).
  apply IH. intros e He. apply H. right. exact He.
Qed.

Lemma run_loop_without_selection w listing :
  (forall e, In e listing -> selected (projector w) e = false) ->
  run_loop leb std w listing = w.
Proof.
  intros Hnone. unfold run_loop. rewrite run_files_selected.
  rewrite filter_none; [reflexivity |].
  intros e He. apply Hnone. apply (Permutation_in _ (sorted_perm listing)). exact He.
Qed.

(** Entries that are not selected have no effect at all: the loop gives the
    same result on the folder and on its selected entries alone. *)
Theorem run_loop_ignores_unselected w listing :
  run_loop leb std w listing =
    run_loop leb std w (filter (selected (projector w)) listing).
Proof.
  unfold run_loop. rewrite !run_files_selected.
  rewrite <- filter_sorted. f_equal.
  rewrite filter_after_filter. apply filter_ext. intros e.
  destruct (selected (projector w) e); reflexivity.
Qed.

(** With an empty list of channels no file is processed, whatever the
    folder holds. *)
Theorem run_loop_no_channels w listing :
  channels (projector w) = [] ->
  run_loop leb std w listing = w.
Proof.
  intros Hc. apply run_loop_without_selection. intros e _.
  unfold selected. rewrite Hc. simpl.
  destruct (is_file e); simpl; [apply andb_false_r | reflexivity].
Qed.

(** After the loop the counter of processed files has grown by the number
    of selected entries whose image has at least four axes, failed files
    included. *)
Theorem run_loop_processed_count w listing :
  processed_count (projector (run_loop leb std w listing)) =
    (processed_count (projector w) +
     List.length
       (filter (fun e => selected (projector w) e &&
                         (3 <? List.length (img_shape (entry_file e)))%nat)
          listing))%nat.
Proof.
  unfold run_loop. rewrite run_files_selected, process_all_count.
  f_equal. rewrite filter_after_filter.
  apply filter_length_perm. apply sorted_perm.
Qed.

(** The loop never changes the rule, the half-width or the channels. *)
Lemma run_files_settings entries :
  forall w, same_settings (projector w) (projector (run_files leb std w entries)).
Proof.
  induction entries as [| e rest IH]; intros w; [repeat split; reflexivity |].
  cbn [run_files]. destruct (selected (projector w) e); [| apply IH].
  eapply same_settings_trans; [| apply IH].
  apply process_tiff_file_settings.
Qed.

End Batch.

(** * The small image and the small folder *)

Lemma demo_file_planes_ok : planes_ok demo_file.
Proof.
  split; [reflexivity |].
  intros v p Hv Hp. simpl in Hv.
  assert (Hcases : p = [[1; 1]; [1; 1]] \/ p = [[0; 9]; [9; 0]]).
  { destruct Hv as [<- | [<- | []]]; simpl in Hp; intuition. }
  split.
  - split; [destruct Hcases as [-> | ->]; reflexivity |].
    intros row Hrow. destruct Hcases as [-> | ->]; simpl in Hrow;
      destruct Hrow as [<- | [<- | []]]; reflexivity.
  - intros row x Hrow Hx. destruct Hcases as [-> | ->]; simpl in Hrow;
      destruct Hrow as [<- | [<- | []]]; simpl in Hx;
      destruct Hx as [<- | [<- | []]]; lia.
Qed.

Lemma saved_stack_witness :
  shape_ok demo_file /\
  0 <= z_range (projector (demo_world "max")) /\
  supported (projector (demo_world "max")) /\
  castable (projector (demo_world "max")) demo_file /\
  exists out,
    dict_get (saved (process_tiff_file Z.leb scaled_variance (demo_world "max") demo_file))
      (output_name (projector (demo_world "max")) demo_file) = Some out /\
    List.length out = nth 0 (img_shape demo_file) 0%nat /\
    forall t, (t < nth 0 (img_shape demo_file) 0)%nat ->
      exists img_proj,
        projected Z.leb scaled_variance (projector (demo_world "max")) demo_file t
          = Ok img_proj /\
        nth_error out t = Some (astype_uint16 img_proj).
Proof.
  assert (H1 : shape_ok demo_file) by exact demo_file_shape_ok.
  assert (H2 : 0 <= z_range (projector (demo_world "max"))) by (simpl; lia).
  assert (H3 : supported (projector (demo_world "max"))) by (right; reflexivity).
  assert (H4 : castable (projector (demo_world "max")) demo_file) by reflexivity.
  split; [exact H1 | split; [exact H2 | split; [exact H3 | split; [exact H4 |]]]].
  exact (saved_stack Z Z.leb scaled_variance (demo_world "max") demo_file H1 H2 H3 H4).
Defined.

Lemma zero_z_range_saves_best_slices_witness :
  shape_ok demo_file /\ planes_ok demo_file /\
  z_range (projector (demo_world_with ["WL508"] "mean" 0)) = 0 /\
  supported (projector (demo_world_with ["WL508"] "mean" 0)) /\
  dict_get
    (saved (process_tiff_file Z.leb scaled_variance
              (demo_world_with ["WL508"] "mean" 0) demo_file))
    "cell_WL508_meanproj.tif"
    = Some [[[0; 9]; [9; 0]]; [[0; 9]; [9; 0]]].
Proof.
  set (w := demo_world_with ["WL508"] "mean" 0).
  assert (H1 : shape_ok demo_file) by exact demo_file_shape_ok.
  assert (H2 : planes_ok demo_file) by exact demo_file_planes_ok.
  assert (H3 : z_range (projector w) = 0) by reflexivity.
  assert (H4 : supported (projector w)) by (left; reflexivity).
  split; [exact H1 | split; [exact H2 | split; [exact H3 | split; [exact H4 |]]]].
  exact (zero_z_range_saves_best_slices Z Z.leb scaled_variance w demo_file H1 H2 H3 H4).
Defined.

Lemma negative_z_range_fails_witness :
  shape_ok demo_file /\
  (1 <= nth 0 (img_shape demo_file) 0)%nat /\
  z_range (projector (demo_world_with ["WL508"] "max" (-1))) < 0 /\
  process_tiff_file Z.leb scaled_variance
    (demo_world_with ["WL508"] "max" (-1)) demo_file =
    {| projector :=
         {| channels := ["WL508"]; projection_type := "max"; z_range := -1;
            report_data := []; processed_count := 1 |};
       saved := [];
       stdout := ["Processing TIFF: cell_WL508.tif";
                  "Error processing cell_WL508.tif: range object index out of range"] |}.
Proof.
  set (w := demo_world_with ["WL508"] "max" (-1)).
  assert (H1 : shape_ok demo_file) by exact demo_file_shape_ok.
  assert (H2 : (1 <= nth 0 (img_shape demo_file) 0)%nat) by (simpl; lia).
  assert (H3 : z_range (projector w) < 0) by (simpl; lia).
  split; [exact H1 | split; [exact H2 | split; [exact H3 |]]].
  exact (negative_z_range_fails Z Z.leb scaled_variance w demo_file H1 H2 H3).
Defined.

Lemma empty_volumes_fail_witness :
  (3 < List.length (img_shape void_file))%nat /\
  (1 <= nth 0 (img_shape void_file) 0)%nat /\
  List.length (img_frames void_file) = nth 0 (img_shape void_file) 0%nat /\
  (forall v, In v (img_frames void_file) -> v = []) /\
  process_tiff_file Z.leb scaled_variance (demo_world "max") void_file =
    {| projector :=
         {| channels := ["WL508"]; projection_type := "max"; z_range := 1;
            report_data := []; processed_count := 1 |};
       saved := [];
       stdout := ["Processing TIFF: void_WL508.tif";
                  "Error processing void_WL508.tif: attempt to get argmax of an empty sequence"] |}.
Proof.
  set (f := void_file).
  assert (H1 : (3 < List.length (img_shape f))%nat) by (simpl; lia).
  assert (H2 : (1 <= nth 0 (img_shape f) 0)%nat) by (simpl; lia).
  assert (H3 : List.length (img_frames f) = nth 0 (img_shape f) 0%nat) by reflexivity.
  assert (H4 : forall v, In v (img_frames f) -> v = []).
  { intros v [<- | []]. reflexivity. }
  split; [exact H1 | split; [exact H2 | split; [exact H3 | split; [exact H4 |]]]].
  exact (empty_volumes_fail Z Z.leb scaled_variance (demo_world "max") f H1 H2 H3 H4).
Defined.

Lemma report_columns_aligned_witness :
  (forall stem r,
     dict_get (report_data (projector (demo_world "max"))) stem = Some r -> aligned r) /\
  forall stem r,
    dict_get
      (report_data (projector
         (process_tiff_file Z.leb scaled_variance (demo_world "max") demo_file)))
      stem = Some r ->
    aligned r.
Proof.
  assert (H : forall stem r,
             dict_get (report_data (projector (demo_world "max"))) stem = Some r ->
             aligned r).
  { intros stem r Hget. discriminate Hget. }
  split; [exact H |].
  exact (report_columns_aligned Z Z.leb scaled_variance (demo_world "max") demo_file H).
Defined.

(** The loop on the small folder: the image of the channel is projected,
    the flat image is selected and skipped, the rest is ignored. *)
Example demo_run_loop :
  let w := run_loop Z.leb scaled_variance (demo_world "max") demo_listing in
  processed_count (projector w) = 1%nat /\
  map fst (report_data (projector w)) = ["cell_WL508"] /\
  map fst (saved w) = ["cell_WL508_maxproj.tif"] /\
  stdout w = ["Processing TIFF: cell_WL508.tif";
              "Skipping flat_WL508.TIF: insufficient dimensions"].
Proof. vm_compute. repeat split; reflexivity. Qed.

Lemma demo_listing_names :
  NoDup (map (fun e => file_name (entry_file e)) demo_listing).
Proof.
  simpl. repeat constructor; simpl; intuition discriminate.
Qed.

Lemma run_loop_order_independent_witness :
  Permutation demo_listing (rev demo_listing) /\
  NoDup (map (fun e => file_name (entry_file e)) demo_listing) /\
  run_loop Z.leb scaled_variance (demo_world "max") demo_listing =
  run_loop Z.leb scaled_variance (demo_world "max") (rev demo_listing).
Proof.
  assert (H1 : Permutation demo_listing (rev demo_listing)) by apply Permutation_rev.
  assert (H2 : NoDup (map (fun e => file_name (entry_file e)) demo_listing))
    by exact demo_listing_names.
  split; [exact H1 | split; [exact H2 |]].
  exact (run_loop_order_independent Z Z.leb scaled_variance (demo_world "max")
           demo_listing (rev demo_listing) H1 H2).
Defined.

Lemma run_loop_no_channels_witness :
  channels (projector (demo_world_with [] "max" 1)) = [] /\
  run_loop Z.leb scaled_variance (demo_world_with [] "max" 1) demo_listing =
    demo_world_with [] "max" 1.
Proof.
  set (w := demo_world_with [] "max" 1).
  assert (H : channels (projector w) = []) by reflexivity.
  split; [exact H |].
  exact (run_loop_no_channels Z Z.leb scaled_variance w demo_listing H).
Defined.

(** The small image with a signed dtype: under the max rule the projected
    plane keeps the signed dtype and the cast to uint16 is refused, so that
    nothing is stored; under the mean rule the plane is a uint16 array and
    the file is projected. *)
Example demo_signed_max :
  process_tiff_file Z.leb scaled_variance (demo_world "max") signed_file
  = {| projector :=
         {| channels := ["WL508"]; projection_type := "max"; z_range := 1;
            report_data := []; processed_count := 1 |};
       saved := [];
       stdout := ["Processing TIFF: signed_WL508.tif";
                  "Error processing signed_WL508.tif: Cannot cast array data from dtype('int16') to dtype('uint16') according to the rule 'same_kind'"] |}.
Proof. vm_compute. reflexivity. Qed.

Example demo_signed_mean :
  map fst (saved (process_tiff_file Z.leb scaled_variance (demo_world "mean") signed_file))
  = ["signed_WL508_meanproj.tif"].
Proof. vm_compute. reflexivity. Qed.
